(** * Verification model of the Whiteout Survival bot backend (src/app.py)

    A shallow embedding of the Flask handlers of [src/app.py]:
    - JSON values and Python dicts (insertion-ordered association lists);
    - the few Python string operations the handlers use ([str.lower],
      [str.startswith], [str.split(None, 1)], slicing, [in]);
    - the outbound [requests] calls as an explicit program of calls
      ([Prog]) run against a stub upstream, so that the number and order
      of outbound calls is observable;
    - uncaught Python exceptions as a [Raised] result, which Flask turns
      into an HTTP 500 response. *)

From Stdlib Require Import ZArith String Ascii List Bool Lia.
Import ListNotations.
Open Scope string_scope.
Set Warnings "-register-all".

(** ** JSON values and Python truthiness *)

(** A JSON value as [json.loads] returns it.  Numbers are kept as
    integers: the handlers never inspect a number beyond its truthiness. *)
Inductive Json : Type :=
| JNull
| JBool (b : bool)
| JNum (n : Z)
| JStr (s : string)
| JArr (l : list Json)
| JObj (kvs : list (string * Json)).

(** Python's [bool(x)] on a decoded JSON value. *)
Definition truthy (j : Json) : bool :=
  match j with
  | JNull => false
  | JBool b => b
  | JNum n => negb (n =? 0)%Z
  | JStr s => negb (String.eqb s "")
  | JArr l => match l with [] => false | _ => true end
  | JObj kvs => match kvs with [] => false | _ => true end
  end.

(** Python's [a or b] on JSON values. *)
Definition py_or (a b : Json) : Json := if truthy a then a else b.

(** [x or default] where [x] may be [None]. *)
Definition opt_or (a : option Json) (b : Json) : Json :=
  match a with Some v => py_or v b | None => b end.

(** Python's [bool(x)] on a value that may be [None]. *)
Definition truthy_opt (a : option Json) : bool :=
  match a with Some v => truthy v | None => false end.

(** ** Python dicts

    A dict is an association list in insertion order; [set] is
    [d[k] = v]: it overwrites the value in place when [k] is present and
    appends otherwise. *)
Module PyDict.

Definition t (V : Type) := list (string * V).

Fixpoint get {V} (k : string) (d : t V) : option V :=
  match d with
  | [] => None
  | (k', v) :: r => if String.eqb k' k then Some v else get k r
  end.

Fixpoint set {V} (k : string) (v : V) (d : t V) : t V :=
  match d with
  | [] => [(k, v)]
  | (k', v') :: r => if String.eqb k' k then (k, v) :: r else (k', v') :: set k v r
  end.

Definition keys {V} (d : t V) : list string := map fst d.

(** [dict(pairs)]: later pairs win, a key keeps its first position. *)
Definition of_pairs {V} (kvs : list (string * V)) : t V :=
  fold_left (fun d '(k, v) => set k v d) kvs [].

End PyDict.

(** [data.get(k)] on a decoded JSON object ([json.loads] builds a dict,
    so a repeated key keeps its last value). *)
Definition obj_get (k : string) (kvs : list (string * Json)) : option Json :=
  PyDict.get k (PyDict.of_pairs kvs).

(** ** Python string operations *)

Definition ascii_code (c : ascii) : nat := nat_of_ascii c.

(** [str.isspace] on a single character of a latin-1 string. *)
Definition py_isspace (c : ascii) : bool :=
  let n := ascii_code c in
  ((9 <=? n) && (n <=? 13))%nat || ((28 <=? n) && (n <=? 32))%nat
  || (n =? 133)%nat || (n =? 160)%nat.

(** [str.lower] on one latin-1 character. *)
Definition py_lower_char (c : ascii) : ascii :=
  let n := ascii_code c in
  if ((65 <=? n) && (n <=? 90))%nat
     || ((192 <=? n) && (n <=? 222) && negb (n =? 215))%nat
  then ascii_of_nat (n + 32) else c.

Fixpoint py_lower (s : string) : string :=
  match s with
  | EmptyString => EmptyString
  | String c r => String (py_lower_char c) (py_lower r)
  end.

(** [s.startswith(p)]. *)
Definition py_startswith (s p : string) : bool := String.prefix p s.

Fixpoint py_lstrip (s : string) : string :=
  match s with
  | EmptyString => EmptyString
  | String c r => if py_isspace c then py_lstrip r else s
  end.

(** Splits off the leading run of non-whitespace characters. *)
Fixpoint take_word (s : string) : string * string :=
  match s with
  | EmptyString => (EmptyString, EmptyString)
  | String c r =>
      if py_isspace c then (EmptyString, s)
      else let (w, rest) := take_word r in (String c w, rest)
  end.

(** [s.split(None, 1)]: leading whitespace is dropped, the first word is
    split off and the remainder loses its leading whitespace; a remainder
    that is empty is not part of the result. *)
Definition py_split_none_1 (s : string) : list string :=
  match py_lstrip s with
  | EmptyString => []
  | s1 =>
      let (w, rest) := take_word s1 in
      match py_lstrip rest with
      | EmptyString => [w]
      | rest' => [w; rest']
      end
  end.

(** [s[:n]]. *)
Definition py_prefix (n : nat) (s : string) : string := substring 0 n s.

(** [sub in s] for strings. *)
Definition py_str_contains (sub s : string) : bool :=
  match index 0 sub s with Some _ => true | None => false end.

(** [str(n)] for a Python int. *)
Fixpoint digits_of_N (fuel : nat) (n : N) (acc : string) : string :=
  match fuel with
  | O => acc
  | S f =>
      let acc' := String (ascii_of_N (48 + N.modulo n 10)) acc in
      if (n <? 10)%N then acc' else digits_of_N f (N.div n 10) acc'
  end.

Definition str_of_N (n : N) : string := digits_of_N (S (N.size_nat n)) n "".

Definition str_of_Z (z : Z) : string :=
  match z with
  | Z0 => "0"
  | Zpos p => str_of_N (Npos p)
  | Zneg p => "-" ++ str_of_N (Npos p)
  end.

(** ** Dicts with keys of any hashable JSON value *)

(** A hashable decoded JSON value: a string, an int, a bool or [None]. *)
Inductive Key : Type :=
| KStr (s : string)
| KInt (z : Z)
| KBool (b : bool)
| KNone.

(** The number a key stands for: Python's [True == 1], [False == 0]. *)
Definition key_num (k : Key) : option Z :=
  match k with
  | KInt z => Some z
  | KBool b => Some (if b then 1 else 0)%Z
  | _ => None
  end.

(** Python's [==] on keys. *)
Definition key_eqb (a b : Key) : bool :=
  match a, b with
  | KStr s, KStr t => String.eqb s t
  | KNone, KNone => true
  | _, _ =>
      match key_num a, key_num b with
      | Some x, Some y => (x =? y)%Z
      | _, _ => false
      end
  end.

(** [hash(j)] succeeds: [None] is the [TypeError] of a list or a dict
    ("unhashable type"). *)
Definition key_of (j : Json) : option Key :=
  match j with
  | JStr s => Some (KStr s)
  | JNum z => Some (KInt z)
  | JBool b => Some (KBool b)
  | JNull => Some KNone
  | JArr _ | JObj _ => None
  end.

(** Keys [<] can compare: strings with strings, ints and bools with each
    other; [None] with nothing else. *)
Definition key_class (k : Key) : nat :=
  match k with
  | KStr _ => 0
  | KInt _ | KBool _ => 1
  | KNone => 2
  end.

(** The object member name [json.dumps] writes for a dict key. *)
Definition key_name (k : Key) : string :=
  match k with
  | KStr s => s
  | KInt z => str_of_Z z
  | KBool true => "true"
  | KBool false => "false"
  | KNone => "null"
  end.

(** A Python dict with keys of any hashable JSON value, in insertion
    order.  [set] is [d[k] = v]: when an equal key is present its value is
    replaced and the key already stored is kept. *)
Module KDict.

Definition t (V : Type) := list (Key * V).

Fixpoint get {V} (k : Key) (d : t V) : option V :=
  match d with
  | [] => None
  | (k', v) :: r => if key_eqb k' k then Some v else get k r
  end.

Fixpoint set {V} (k : Key) (v : V) (d : t V) : t V :=
  match d with
  | [] => [(k, v)]
  | (k', v') :: r => if key_eqb k' k then (k', v) :: r else (k', v') :: set k v r
  end.

Definition keys {V} (d : t V) : list Key := map fst d.

End KDict.

(** Every key of the dict is a string. *)
Definition str_keys {V} (d : KDict.t V) : bool :=
  forallb (fun '(k, _) => Nat.eqb (key_class k) 0) d.

(** The members of the JSON object written for a dict. *)
Definition kdict_members (d : KDict.t Json) : list (string * Json) :=
  map (fun '(k, v) => (key_name k, v)) d.

(** [jsonify] of a dict.  Flask sorts the keys ([sort_keys=True]) and
    [sorted] raises [TypeError] as soon as two keys of different classes
    are compared, which happens whenever the dict holds two of them; the
    answer is [None] then.  The members are listed in the dict's order: a
    JSON object does not depend on the order of its members. *)
Definition kdict_json (d : KDict.t Json) : option Json :=
  match d with
  | [] => Some (JObj [])
  | (k0, _) :: _ =>
      if forallb (fun '(k, _) => Nat.eqb (key_class k) (key_class k0)) d
      then Some (JObj (kdict_members d))
      else None
  end.

(** ** [str] of a decoded JSON value *)

Definition dquote : ascii := ascii_of_nat 34.
Definition backslash : ascii := ascii_of_nat 92.

Definition hex_digit (n : nat) : ascii :=
  ascii_of_nat (if (n <? 10)%nat then 48 + n else 87 + n).

(** [str.isprintable] on one latin-1 character. *)
Definition py_isprintable (c : ascii) : bool :=
  let n := ascii_code c in
  negb ((n <? 32)%nat || ((127 <=? n) && (n <=? 160))%nat || (n =? 173)%nat).

(** One character inside [repr] of a string quoted with [q]. *)
Definition repr_char (q c : ascii) : string :=
  let n := ascii_code c in
  if Ascii.eqb c q || Ascii.eqb c backslash then String backslash (String c EmptyString)
  else if (n =? 9)%nat then String backslash "t"
  else if (n =? 10)%nat then String backslash "n"
  else if (n =? 13)%nat then String backslash "r"
  else if py_isprintable c then String c EmptyString
  else String backslash (String "x" (String (hex_digit (n / 16)) (String (hex_digit (n mod 16)) EmptyString))).

(** [repr(s)]: single quotes, double quotes when [s] holds a single quote
    and no double quote. *)
Definition repr_str (s : string) : string :=
  let cs := list_ascii_of_string s in
  let q := if existsb (Ascii.eqb "'"%char) cs && negb (existsb (Ascii.eqb dquote) cs)
           then dquote else "'"%char in
  String q (String.concat "" (map (repr_char q) cs) ++ String q EmptyString).

(** [repr] of a decoded JSON value (a dict keeps the last value of a
    repeated key at its first position). *)
Fixpoint py_repr (j : Json) : string :=
  match j with
  | JNull => "None"
  | JBool true => "True"
  | JBool false => "False"
  | JNum z => str_of_Z z
  | JStr s => repr_str s
  | JArr l => "[" ++ String.concat ", " (map py_repr l) ++ "]"
  | JObj kvs =>
      "{" ++ String.concat ", "
               (map (fun '(k, r) => repr_str k ++ ": " ++ r)
                  (PyDict.of_pairs (map (fun '(k, v) => (k, py_repr v)) kvs))) ++ "}"
  end.

(** [str(j)], as an f-string writes it. *)
Definition py_str (j : Json) : string :=
  match j with
  | JStr s => s
  | _ => py_repr j
  end.

(** [for x in v]: a list gives its items, a string its characters, a
    dict its keys; a number, a bool or [None] is not iterable ([None] is
    the [TypeError]). *)
Definition py_iter (v : Json) : option (list Json) :=
  match v with
  | JArr l => Some l
  | JStr s => Some (map (fun c => JStr (String c EmptyString)) (list_ascii_of_string s))
  | JObj kvs => Some (map JStr (PyDict.keys (PyDict.of_pairs kvs)))
  | _ => None
  end.

(** ** HTTP responses, outbound calls and the stub upstream *)

(** A Python exception that escapes a view function. *)
Inductive PyExc : Type := AttributeError | TypeError | ValueError | IndexError.

(** What a view function hands back to Flask. *)
Inductive Result : Type :=
| JsonResp (status : Z) (body : Json)
    (** [jsonify(body), status] *)
| RawResp (status : Z) (content : string) (headers : list (string * string))
    (** [(r.content, r.status_code, dict(r.headers))] *)
| Raised (e : PyExc)
    (** an uncaught exception *)
| Aborted (status : Z).
    (** an HTTP error raised by Flask itself (a [werkzeug] [HTTPException]),
        answered with its status and an HTML error page *)

(** The HTTP status Flask sends for a result: an uncaught exception
    becomes an Internal Server Error. *)
Definition http_status (r : Result) : Z :=
  match r with
  | JsonResp st _ => st
  | RawResp st _ _ => st
  | Raised _ => 500
  | Aborted st => st
  end.

(** An outbound request issued through [requests]. *)
Record Request : Type := mkRequest {
  req_method : string;
  req_url : string;
  req_headers : list (string * string);
  req_form : list (string * Json)
}.

(** A [requests.Response]: [json_body] is what [r.json()] returns, [None]
    when the text does not decode as JSON ([r.json()] raises a
    [ValueError] subclass then). *)
Record Response : Type := mkResponse {
  status_code : Z;
  text : string;
  json_body : option Json;
  resp_headers : list (string * string)
}.

(** The outcome of one [requests.get]/[requests.post]: a response, or an
    exception (timeout, connection error) carrying [str(e)]. *)
Inductive Outcome : Type :=
| Reached (r : Response)
| Transport (msg : string).

(** A handler as a program of outbound calls: [Call q k] issues [q] and
    continues with [k] applied to its outcome. *)
Inductive Prog : Type :=
| Ret (r : Result)
| Call (q : Request) (k : Outcome -> Prog).

(** The upstream (Discord) as seen by the handlers: the [n]-th outbound
    call of a request ([n] counted from 0) with request [q] gets the
    outcome [upstream n q]. *)
Definition Upstream := nat -> Request -> Outcome.

(** Runs a handler against an upstream; returns the result and the
    outbound requests in the order they were made. *)
Fixpoint run_from (up : Upstream) (n : nat) (p : Prog) : Result * list Request :=
  match p with
  | Ret r => (r, [])
  | Call q k => let (r, qs) := run_from up (S n) (k (up n q)) in (r, q :: qs)
  end.

Definition run (up : Upstream) (p : Prog) : Result * list Request := run_from up 0 p.

Definition result_of (up : Upstream) (p : Prog) : Result := fst (run up p).
Definition calls_of (up : Upstream) (p : Prog) : nat := length (snd (run up p)).

(** The process environment ([os.environ.get]). *)
Record Env : Type := mkEnv {
  DISCORD_CLIENT_ID : option string;
  DISCORD_CLIENT_SECRET : option string;
  DISCORD_BOT_TOKEN : option string;
  DISCORD_BOT_ID : option string
}.

(** [not x] for an environment value. *)
Definition env_unset (v : option string) : bool :=
  match v with None => true | Some s => String.eqb s "" end.

Definition env_str (v : option string) : string :=
  match v with Some s => s | None => "" end.

(** The body of an incoming request as [request.json] sees it: a body
    sent with a JSON content type that decodes to a JSON value; no JSON
    body (no body at all, or a content type other than JSON); or a JSON
    content type with a body that does not decode. *)
Inductive Body : Type :=
| JsonBody (j : Json)
| NoJson
| BadJson.

(** [request.json] (Flask 2.3 and later): without a JSON body Flask
    raises 415 Unsupported Media Type, for JSON that does not decode 400
    Bad Request.  A decoded [null] is Python's [None]. *)
Definition request_json (body : Body) : Json + Result :=
  match body with
  | JsonBody j => inl j
  | NoJson => inr (Aborted 415)
  | BadJson => inr (Aborted 400)
  end.

(** [data = request.json or {}] followed by a use of [data] as a dict: a
    falsy JSON value is replaced by [{}], and a truthy JSON value that is
    not an object makes the next [data.get] raise [AttributeError].
    [inr] is the answer when this fails. *)
Definition request_dict (body : Body) : list (string * Json) + Result :=
  match request_json body with
  | inr err => inr err
  | inl j =>
      match py_or j (JObj []) with
      | JObj kvs => inl kvs
      | _ => inr (Raised AttributeError)
      end
  end.

Definition err_body (msg : string) : Json := JObj [("error", JStr msg)].

(** ** [oauth_exchange] (POST /oauth/exchange) *)

Definition token_url : string := "https://discord.com/api/oauth2/token".

Definition token_request (client_id client_secret : string) (code redirect_uri : Json)
  : Request :=
  {| req_method := "POST";
     req_url := token_url;
     req_headers := [("Content-Type", "application/x-www-form-urlencoded")];
     req_form := [("client_id", JStr client_id); ("client_secret", JStr client_secret);
                  ("grant_type", JStr "authorization_code"); ("code", code);
                  ("redirect_uri", redirect_uri)] |}.

(** [needle in data] for a decoded JSON value: key membership for a dict,
    element equality for a list, substring for a string; [None] is the
    [TypeError] Python raises for [in] on [None], a bool or a number. *)
Definition py_contains (needle : string) (data : Json) : option bool :=
  match data with
  | JObj kvs => Some (match obj_get needle kvs with Some _ => true | None => false end)
  | JArr l => Some (existsb (fun j => match j with JStr s => String.eqb s needle | _ => false end) l)
  | JStr s => Some (py_str_contains needle s)
  | _ => None
  end.

(** Lines 104-108: the answer for a token-endpoint response whose body
    decoded to [data]. *)
Definition exchange_answer (r : Response) (data : Json) : Result :=
  let rejected :=
    if negb (status_code r =? 200)%Z then Some true else py_contains "error" data in
  match rejected with
  | None => Raised TypeError
  | Some false => JsonResp 200 data
  | Some true =>
      match data with
      | JObj kvs =>
          let msg := opt_or (obj_get "error_description" kvs)
                       (opt_or (obj_get "error" kvs) (JStr "Unknown error")) in
          JsonResp (status_code r) (JObj [("error", msg); ("raw", data)])
      | _ => Raised AttributeError
      end
  end.

(** Lines 94-108: the answer once the token endpoint was called. *)
Definition token_reply (o : Outcome) : Result :=
  match o with
  | Transport msg =>
      JsonResp 502 (JObj [("error", JStr "failed to contact Discord token endpoint");
                          ("details", JStr msg)])
  | Reached r =>
      match json_body r with
      | None =>
          JsonResp (status_code r)
            (JObj [("error", JStr "Discord token endpoint returned invalid response");
                   ("raw", JStr (text r))])
      | Some d => exchange_answer r d
      end
  end.

Definition oauth_exchange (env : Env) (body : Body) : Prog :=
  match request_dict body with
  | inr err => Ret err
  | inl data =>
      let code := obj_get "code" data in
      let redirect_uri := obj_get "redirect_uri" data in
      let client_id := DISCORD_CLIENT_ID env in
      let client_secret := DISCORD_CLIENT_SECRET env in
      if negb (truthy_opt code) || negb (truthy_opt redirect_uri) then
        Ret (JsonResp 400 (err_body "missing code or redirect_uri"))
      else if env_unset client_id || env_unset client_secret then
        Ret (JsonResp 500 (err_body "server missing OAuth client credentials (set DISCORD_CLIENT_ID and DISCORD_CLIENT_SECRET)"))
      else
        Call (token_request (env_str client_id) (env_str client_secret)
                (opt_or code JNull) (opt_or redirect_uri JNull))
          (fun o => Ret (token_reply o))
  end.

(** ** [oauth_me] (GET /oauth/me) and [oauth_guilds] (GET /oauth/guilds) *)

(** [not auth or not auth.lower().startswith('bearer ')]. *)
Definition bearer_rejected (auth : option string) : bool :=
  match auth with
  | None => true
  | Some a => String.eqb a "" || negb (py_startswith (py_lower a) "bearer ")
  end.

(** [auth.split(None, 1)[1]]; [None] is the [IndexError]. *)
Definition bearer_token (a : string) : option string :=
  nth_error (py_split_none_1 a) 1.

Definition missing_bearer : Result :=
  JsonResp 401 (err_body "missing Authorization: Bearer <token> header").

Definition contact_failed (msg : string) : Result :=
  JsonResp 502 (JObj [("error", JStr "failed to contact Discord API"); ("details", JStr msg)]).

Definition me_request (token : string) : Request :=
  {| req_method := "GET";
     req_url := "https://discord.com/api/v10/users/@me";
     req_headers := [("Authorization", "Bearer " ++ token); ("Accept", "application/json")];
     req_form := [] |}.

(** Lines 141-148.  The logging call [response_data.get('username', ...)]
    runs before [jsonify], so a decoded body that is not a dict raises
    [AttributeError] there. *)
Definition me_answer (r : Response) : Result :=
  match json_body r with
  | None =>
      JsonResp 502 (JObj [("error", JStr "invalid response from Discord");
                          ("details", JStr (py_prefix 200 (text r)))])
  | Some (JObj kvs) => JsonResp 200 (JObj kvs)
  | Some _ => Raised AttributeError
  end.

(** Lines 137-148. *)
Definition me_reply (o : Outcome) : Result :=
  match o with
  | Transport msg => contact_failed msg
  | Reached r => me_answer r
  end.

Definition oauth_me (auth : option string) : Prog :=
  if bearer_rejected auth then Ret missing_bearer
  else
    match bearer_token (match auth with Some a => a | None => "" end) with
    | None => Ret (Raised IndexError)
    | Some token =>
        Call (me_request token) (fun o => Ret (me_reply o))
    end.

Definition guilds_request (token : string) : Request :=
  {| req_method := "GET";
     req_url := "https://discord.com/api/users/@me/guilds";
     req_headers := [("Authorization", "Bearer " ++ token)];
     req_form := [] |}.

(** Line 163: the upstream body, status and headers are relayed as they are. *)
Definition guilds_answer (r : Response) : Result :=
  RawResp (status_code r) (text r) (resp_headers r).

(** Lines 161-163. *)
Definition guilds_reply (o : Outcome) : Result :=
  match o with
  | Transport msg => contact_failed msg
  | Reached r => guilds_answer r
  end.

Definition oauth_guilds (auth : option string) : Prog :=
  if bearer_rejected auth then Ret missing_bearer
  else
    match bearer_token (match auth with Some a => a | None => "" end) with
    | None => Ret (Raised IndexError)
    | Some token =>
        Call (guilds_request token) (fun o => Ret (guilds_reply o))
    end.

(** ** [bot_guilds_status] (POST /bot/guilds_status) *)

(** The three collections the loop builds. *)
Record Presence : Type := mkPresence {
  present : list string;
  missing : list string;
  errors : PyDict.t string
}.

Definition empty_presence : Presence := mkPresence [] [] [].

Definition member_request (bot_token bot_id gid : string) : Request :=
  {| req_method := "GET";
     req_url := "https://discord.com/api/guilds/" ++ gid ++ "/members/" ++ bot_id;
     req_headers := [("Authorization", "Bot " ++ bot_token)];
     req_form := [] |}.

(** The body of one iteration of the loop (lines 197-216). *)
Definition classify (gid : string) (o : Outcome) (p : Presence) : Presence :=
  match o with
  | Reached r =>
      if (status_code r =? 200)%Z then mkPresence (present p ++ [gid]) (missing p) (errors p)
      else if (status_code r =? 404)%Z then mkPresence (present p) (missing p ++ [gid]) (errors p)
      else mkPresence (present p) (missing p)
             (PyDict.set gid ("status=" ++ str_of_Z (status_code r) ++ " body="
                              ++ py_prefix 300 (text r)) (errors p))
  | Transport msg => mkPresence (present p) (missing p) (PyDict.set gid msg (errors p))
  end.

Definition presence_json (p : Presence) : Json :=
  JObj [("present", JArr (map JStr (present p)));
        ("missing", JArr (map JStr (missing p)));
        ("errors", JObj (map (fun '(k, v) => (k, JStr v)) (errors p)))].

Fixpoint guild_loop (bot_token bot_id : string) (gids : list string) (p : Presence) : Prog :=
  match gids with
  | [] => Ret (JsonResp 200 (presence_json p))
  | gid :: rest =>
      Call (member_request bot_token bot_id gid)
        (fun o => guild_loop bot_token bot_id rest (classify gid o p))
  end.

(** Lines 178-218 for a list of guild ID strings, the input the
    handler documents ([{ guild_ids: ["id1","id2", ...] }]).  The combined
    check of lines 188-189 cannot fire after the two checks before it.
    The whole view, body parsing (lines 173-174) and IDs of any JSON type
    included, is [bot_guilds_status_handler] below; on a JSON list of
    strings it runs as this function ([handler_string_ids]). *)
Definition bot_guilds_status (env : Env) (guild_ids : list string) : Prog :=
  let bot_token := DISCORD_BOT_TOKEN env in
  let bot_id := DISCORD_BOT_ID env in
  if env_unset bot_token then Ret (JsonResp 500 (err_body "DISCORD_BOT_TOKEN not configured"))
  else if env_unset bot_id then Ret (JsonResp 500 (err_body "DISCORD_BOT_ID not configured"))
  else guild_loop (env_str bot_token) (env_str bot_id) guild_ids empty_presence.

(** The loop of lines 191-218 over guild IDs of any JSON type: [gid] is
    formatted into the URL with [str], appended as it is to [present] or
    [missing], and used as a key of [errors]. *)
Record GPresence : Type := mkGPresence {
  gpresent : list Json;
  gmissing : list Json;
  gerrors : KDict.t string
}.

(** One iteration; [None] is the [TypeError] that escapes the loop when an
    unhashable [gid] (a list or a dict) is stored in [errors]: the
    [except] clause's own [errors[gid] = str(e)] raises it again. *)
Definition classify_any (gid : Json) (o : Outcome) (p : GPresence) : option GPresence :=
  let record_error (msg : string) :=
    match key_of gid with
    | Some k => Some (mkGPresence (gpresent p) (gmissing p) (KDict.set k msg (gerrors p)))
    | None => None
    end in
  match o with
  | Reached r =>
      if (status_code r =? 200)%Z then Some (mkGPresence (gpresent p ++ [gid]) (gmissing p) (gerrors p))
      else if (status_code r =? 404)%Z then Some (mkGPresence (gpresent p) (gmissing p ++ [gid]) (gerrors p))
      else record_error ("status=" ++ str_of_Z (status_code r) ++ " body=" ++ py_prefix 300 (text r))
  | Transport msg => record_error msg
  end.

(** [jsonify({'present': ..., 'missing': ..., 'errors': ...})]; [None]
    when the keys of [errors] cannot be sorted. *)
Definition gpresence_json (p : GPresence) : option Json :=
  match kdict_json (map (fun '(k, v) => (k, JStr v)) (gerrors p)) with
  | Some e => Some (JObj [("present", JArr (gpresent p)); ("missing", JArr (gmissing p)); ("errors", e)])
  | None => None
  end.

Fixpoint guild_loop_any (bot_token bot_id : string) (gids : list Json) (p : GPresence) : Prog :=
  match gids with
  | [] =>
      Ret (match gpresence_json p with
           | Some j => JsonResp 200 j
           | None => Raised TypeError
           end)
  | gid :: rest =>
      Call (member_request bot_token bot_id (py_str gid))
        (fun o => match classify_any gid o p with
                  | Some p' => guild_loop_any bot_token bot_id rest p'
                  | None => Ret (Raised TypeError)
                  end)
  end.

(** The string-keyed errors of [bot_guilds_status] as a general dict. *)
Definition lift_errors (e : PyDict.t string) : KDict.t string :=
  map (fun '(k, v) => (KStr k, v)) e.

(** The collections of the string-ID loop as the general loop holds them. *)
Definition lift_presence (p : Presence) : GPresence :=
  mkGPresence (map JStr (present p)) (map JStr (missing p)) (lift_errors (errors p)).

(** The view [bot_guilds_status] (lines 166-218).  The logging calls
    cannot fail ([str] of a JSON value always succeeds). *)
Definition bot_guilds_status_handler (env : Env) (body : Body) : Prog :=
  match request_dict body with
  | inr err => Ret err
  | inl data =>
      let guild_ids := opt_or (obj_get "guild_ids" data) (JArr []) in
      let bot_token := DISCORD_BOT_TOKEN env in
      let bot_id := DISCORD_BOT_ID env in
      if env_unset bot_token then Ret (JsonResp 500 (err_body "DISCORD_BOT_TOKEN not configured"))
      else if env_unset bot_id then Ret (JsonResp 500 (err_body "DISCORD_BOT_ID not configured"))
      else
        match py_iter guild_ids with
        | None => Ret (Raised TypeError)
        | Some gids => guild_loop_any (env_str bot_token) (env_str bot_id) gids (mkGPresence [] [] [])
        end
  end.

(** ** The stats store: [stats] (GET /stats) and [update_stats] (POST /update_stats) *)

(** The module-level dict [bot_stats] at process start. *)
Definition bot_stats : KDict.t Json :=
  [(KStr "bot_name", JStr "Whiteout Survival"); (KStr "servers", JNum 0); (KStr "users", JNum 0);
   (KStr "uptime", JStr "Starting...")].

(** Lines 56-59, with the elapsed time [datetime.now() - start_time] given
    in microseconds (the resolution of [timedelta]): [hours] and [minutes]
    are the floor divisions of the code.  The float arithmetic of
    [total_seconds()] is exact at microsecond resolution for any uptime
    below a million hours. *)
Definition uptime_string (elapsed_us : Z) : string :=
  let hours := (elapsed_us / 3600000000)%Z in
  let minutes := ((elapsed_us mod 3600000000) / 60000000)%Z in
  str_of_Z hours ++ "h " ++ str_of_Z minutes ++ "m".

(** [stats()]: writes the uptime into the shared dict, then [jsonify]
    answers it; the write stays when [jsonify] raises. *)
Definition stats (elapsed_us : Z) (st : KDict.t Json) : Result * KDict.t Json :=
  let st' := KDict.set (KStr "uptime") (JStr (uptime_string elapsed_us)) st in
  (match kdict_json st' with
   | Some j => JsonResp 200 j
   | None => Raised TypeError
   end, st').

(** One element of a sequence given to [dict.update]
    ([PyDict_MergeFromSeq2]): it is turned into a sequence (a list, the
    characters of a string, the keys of a dict; a number, a bool or [None]
    raise [TypeError]) that must have two items ([ValueError] otherwise);
    the first one is the key and must be hashable ([TypeError] for a list
    or a dict). *)
Definition update_pair (e : Json) : (Key * Json) + PyExc :=
  match e with
  | JArr [k; v] =>
      match key_of k with
      | Some k' => inl (k', v)
      | None => inr TypeError
      end
  | JArr _ => inr ValueError
  | JStr (String a (String b EmptyString)) =>
      inl (KStr (String a EmptyString), JStr (String b EmptyString))
  | JStr _ => inr ValueError
  | JObj kvs =>
      match PyDict.keys (PyDict.of_pairs kvs) with
      | [k1; k2] => inl (KStr k1, JStr k2)
      | _ => inr ValueError
      end
  | _ => inr TypeError
  end.

(** [d.update(seq)]: pairs are stored one after the other; a bad element
    raises and leaves the earlier pairs stored. *)
Fixpoint update_seq (l : list Json) (d : KDict.t Json) : KDict.t Json * option PyExc :=
  match l with
  | [] => (d, None)
  | e :: r =>
      match update_pair e with
      | inl (k, v) => update_seq r (KDict.set k v d)
      | inr exc => (d, Some exc)
      end
  end.

(** [d.update(data)] for a decoded JSON value: a dict is merged key by
    key; a string is a sequence of one-character strings, none of which is
    a pair; a number or a bool is not iterable. *)
Definition dict_update (d : KDict.t Json) (data : Json) : KDict.t Json * option PyExc :=
  match data with
  | JObj kvs =>
      (fold_left (fun acc '(k, v) => KDict.set (KStr k) v acc) (PyDict.of_pairs kvs) d, None)
  | JArr l => update_seq l d
  | JStr _ => (d, Some ValueError)
  | _ => (d, Some TypeError)
  end.

Definition update_stats (body : Body) (st : KDict.t Json) : Result * KDict.t Json :=
  match request_json body with
  | inr err => (err, st)
  | inl j =>
      match dict_update st (py_or j (JObj [])) with
      | (st', None) =>
          (match kdict_json st' with
           | Some u => JsonResp 200 (JObj [("success", JBool true); ("updated", u)])
           | None => Raised TypeError
           end, st')
      | (st', Some exc) => (Raised exc, st')
      end
  end.

(** ** [debug_env] (GET /debug/env) *)

(** [bool(os.environ.get(name))] for each of the four variables. *)
Definition debug_env (env : Env) : Result :=
  JsonResp 200
    (JObj [("env_vars_present",
            JObj [("DISCORD_CLIENT_ID", JBool (negb (env_unset (DISCORD_CLIENT_ID env))));
                  ("DISCORD_CLIENT_SECRET", JBool (negb (env_unset (DISCORD_CLIENT_SECRET env))));
                  ("DISCORD_BOT_TOKEN", JBool (negb (env_unset (DISCORD_BOT_TOKEN env))));
                  ("DISCORD_BOT_ID", JBool (negb (env_unset (DISCORD_BOT_ID env))))])]).

(** The entry under key [k] of a JSON object answer. *)
Definition answer_get (k : string) (r : Result) : option Json :=
  match r with
  | JsonResp _ (JObj kvs) => PyDict.get k kvs
  | _ => None
  end.

(** No character of [s] is whitespace. *)
Definition no_space (s : string) : bool :=
  forallb (fun c => negb (py_isspace c)) (list_ascii_of_string s).

(** ** Views of the guild-presence loop used by the statements below *)

(** The collection a single lookup outcome sends its ID to. *)
Inductive Kind : Type := KPresent | KMissing | KError.

Definition kind_of (o : Outcome) : Kind :=
  match o with
  | Reached r =>
      if (status_code r =? 200)%Z then KPresent
      else if (status_code r =? 404)%Z then KMissing else KError
  | Transport _ => KError
  end.

Definition kind_eqb (a b : Kind) : bool :=
  match a, b with
  | KPresent, KPresent | KMissing, KMissing | KError, KError => true
  | _, _ => false
  end.

(** The [errors] entry an error outcome records. *)
Definition describe (o : Outcome) : string :=
  match o with
  | Reached r => "status=" ++ str_of_Z (status_code r) ++ " body=" ++ py_prefix 300 (text r)
  | Transport msg => msg
  end.

(** The lookups the loop makes from call number [n] on: each ID with the
    outcome of its own request. *)
Fixpoint lookups_from (up : Upstream) (n : nat) (bot_token bot_id : string)
    (gids : list string) : list (string * Outcome) :=
  match gids with
  | [] => []
  | g :: r => (g, up n (member_request bot_token bot_id g)) :: lookups_from up (S n) bot_token bot_id r
  end.

Definition lookups (up : Upstream) (env : Env) (gids : list string) : list (string * Outcome) :=
  lookups_from up 0 (env_str (DISCORD_BOT_TOKEN env)) (env_str (DISCORD_BOT_ID env)) gids.

(** The IDs whose lookup had the given kind, in input order. *)
Definition ids_of_kind (k : Kind) (ls : list (string * Outcome)) : list string :=
  map fst (filter (fun '(_, o) => kind_eqb (kind_of o) k) ls).

(** The [errors] entries the error lookups write, in call order. *)
Definition error_entries (ls : list (string * Outcome)) : list (string * string) :=
  map (fun '(g, o) => (g, describe o)) (filter (fun '(_, o) => kind_eqb (kind_of o) KError) ls).

(** The loop's accumulated collections, computed without the calls. *)
Fixpoint guild_fold (up : Upstream) (n : nat) (bot_token bot_id : string)
    (gids : list string) (p : Presence) : Presence :=
  match gids with
  | [] => p
  | g :: r => guild_fold up (S n) bot_token bot_id r
                (classify g (up n (member_request bot_token bot_id g)) p)
  end.

(** [g] is in exactly the collection [kind_of o] names, and an error entry
    holds [describe o]. *)
Definition placed (p : Presence) (g : string) (o : Outcome) : Prop :=
  match kind_of o with
  | KPresent => In g (present p) /\ ~ In g (missing p) /\ PyDict.get g (errors p) = None
  | KMissing => ~ In g (present p) /\ In g (missing p) /\ PyDict.get g (errors p) = None
  | KError => ~ In g (present p) /\ ~ In g (missing p) /\ PyDict.get g (errors p) = Some (describe o)
  end.

(** The number of collections [g] appears in. *)
Definition collections_count (p : Presence) (g : string) : nat :=
  (if existsb (String.eqb g) (present p) then 1 else 0)
  + (if existsb (String.eqb g) (missing p) then 1 else 0)
  + (match PyDict.get g (errors p) with Some _ => 1 | None => 0 end).

(** The first part of claim C1 at one request whose input IDs are
    [gids]: every input ID is in exactly one collection of the answer. *)
Definition exactly_one_collection (env : Env) (body : Body) (gids : list string) (up : Upstream) : Prop :=
  forall p, result_of up (bot_guilds_status_handler env body) = JsonResp 200 (presence_json p) ->
  forall g, In g gids -> collections_count p g = 1.

(** A request body [{"guild_ids": [...]}] with string IDs. *)
Definition guild_ids_body (gids : list string) : Body :=
  JsonBody (JObj [("guild_ids", JArr (map JStr gids))]).

(** ** Concrete inputs *)

(** An environment with bot credentials configured. *)
Definition env_bot : Env := mkEnv None None (Some "bot-token") (Some "1234").

(** An upstream that answers the first lookup with 200 and rate-limits
    every later one (429). *)
Definition up_rate_limited : Upstream :=
  fun n _ => if Nat.eqb n 0 then Reached (mkResponse 200 "{}" (Some (JObj [])) [])
             else Reached (mkResponse 429 "rate limited" None []).

(** The stub of the spec's isolation scenario: "A" is a member (200), the
    lookup of "B" raises, "C" is unknown (404). *)
Definition up_isolation : Upstream :=
  fun _ q =>
    if String.eqb (req_url q) (req_url (member_request "bot-token" "1234" "B"))
    then Transport "Read timed out."
    else if String.eqb (req_url q) (req_url (member_request "bot-token" "1234" "A"))
    then Reached (mkResponse 200 "{}" (Some (JObj [])) [])
    else Reached (mkResponse 404 "{}" (Some (JObj [])) []).

(** The error text [exchange_answer] puts in its envelope, as the spec
    words it: the first truthy one of [error_description] and [error],
    else a generic message. *)
Definition first_truthy (vs : list (option Json)) (default : Json) : Json :=
  fold_right (fun v acc => match v with Some j => if truthy j then j else acc | None => acc end)
    default vs.

Definition rejection_message (kvs : list (string * Json)) : Json :=
  first_truthy [obj_get "error_description" kvs; obj_get "error" kvs] (JStr "Unknown error").

(** The uptime entry of a JSON answer. *)
Definition uptime_of (r : Result) : option Json :=
  match r with
  | JsonResp _ (JObj kvs) => PyDict.get "uptime" kvs
  | _ => None
  end.

(** The key with its last binding in an association list. *)
Fixpoint last_binding {V} (k : string) (l : list (string * V)) : option V :=
  match l with
  | [] => None
  | (k', v) :: r =>
      match last_binding k r with
      | Some w => Some w
      | None => if String.eqb k' k then Some v else None
      end
  end.

(** An upstream answering every call with the same outcome. *)
Definition up_const (o : Outcome) : Upstream := fun _ _ => o.

(** OAuth client credentials configured. *)
Definition env_oauth : Env := mkEnv (Some "client-id") (Some "client-secret") None None.

Definition exchange_body : Body :=
  JsonBody (JObj [("code", JStr "abc123");
                  ("redirect_uri", JStr "https://whiteout-survival.vercel.app/callback")]).

Definition auth_ok : option string := Some "Bearer abc123".

(** A token-endpoint rejection as Discord sends it. *)
Definition resp_invalid_grant : Response :=
  mkResponse 400 "{...}"
    (Some (JObj [("error", JStr "invalid_grant");
                 ("error_description", JStr "Invalid code in request.")])) [].

(** A 400 whose body decodes to an empty JSON list. *)
Definition resp_list_400 : Response := mkResponse 400 "[]" (Some (JArr [])) [].

(** A 200 whose body is not JSON. *)
Definition resp_html_200 : Response :=
  mkResponse 200 "<html>maintenance</html>" None [("Content-Type", "text/html")].

(** Discord's answer to an expired bearer token. *)
Definition resp_unauthorized : Response :=
  mkResponse 401 "{...}" (Some (JObj [("message", JStr "401: Unauthorized"); ("code", JNum 0)])) [].

(** A 200 whose body decodes to a JSON list. *)
Definition resp_list_200 : Response := mkResponse 200 "[]" (Some (JArr [])) [].

(** * Properties *)

(** ** Python dicts *)

Lemma get_set_eq {V} (k : string) (v : V) (d : PyDict.t V) :
  PyDict.get k (PyDict.set k v d) = Some v.
Proof.
  induction d as [|[k' v'] d IH]; simpl.
  - now rewrite String.eqb_refl.
  - destruct (String.eqb k' k) eqn:E; simpl.
    + now rewrite String.eqb_refl.
    + now rewrite E.
Qed.

Lemma get_set_neq {V} (k k2 : string) (v : V) (d : PyDict.t V) :
  k <> k2 -> PyDict.get k2 (PyDict.set k v d) = PyDict.get k2 d.
Proof.
  intros Hne; induction d as [|[k' v'] d IH]; simpl.
  - destruct (String.eqb k k2) eqn:E; [apply String.eqb_eq in E; congruence | reflexivity].
  - destruct (String.eqb k' k) eqn:E; simpl.
    + apply String.eqb_eq in E; subst k'.
      destruct (String.eqb k k2) eqn:E2; [apply String.eqb_eq in E2; congruence | reflexivity].
    + now rewrite IH.
Qed.

(** ** The guild-presence loop *)

Lemma run_guild_loop (up : Upstream) (n : nat) (tok bid : string) (gids : list string) (p : Presence) :
  run_from up n (guild_loop tok bid gids p)
  = (JsonResp 200 (presence_json (guild_fold up n tok bid gids p)), map (member_request tok bid) gids).
Proof.
  revert n p; induction gids as [|g r IH]; intros n p; simpl; [reflexivity|].
  now rewrite IH.
Qed.

Lemma classify_kind (g : string) (o : Outcome) (p : Presence) :
  classify g o p =
  match kind_of o with
  | KPresent => mkPresence (present p ++ [g]) (missing p) (errors p)
  | KMissing => mkPresence (present p) (missing p ++ [g]) (errors p)
  | KError => mkPresence (present p) (missing p) (PyDict.set g (describe o) (errors p))
  end.
Proof.
  destruct o as [r|msg]; simpl; [|reflexivity].
  destruct (status_code r =? 200)%Z; [reflexivity|].
  destruct (status_code r =? 404)%Z; reflexivity.
Qed.

Lemma fold_present (up : Upstream) (n : nat) (tok bid : string) (gids : list string) (p : Presence) :
  present (guild_fold up n tok bid gids p)
  = (present p ++ ids_of_kind KPresent (lookups_from up n tok bid gids))%list.
Proof.
  revert n p; induction gids as [|g r IH]; intros n p; simpl.
  - now rewrite app_nil_r.
  - rewrite IH, classify_kind; unfold ids_of_kind; simpl.
    destruct (kind_of (up n (member_request tok bid g))); simpl;
      rewrite <- ?app_assoc; reflexivity.
Qed.

Lemma fold_missing (up : Upstream) (n : nat) (tok bid : string) (gids : list string) (p : Presence) :
  missing (guild_fold up n tok bid gids p)
  = (missing p ++ ids_of_kind KMissing (lookups_from up n tok bid gids))%list.
Proof.
  revert n p; induction gids as [|g r IH]; intros n p; simpl.
  - now rewrite app_nil_r.
  - rewrite IH, classify_kind; unfold ids_of_kind; simpl.
    destruct (kind_of (up n (member_request tok bid g))); simpl;
      rewrite <- ?app_assoc; reflexivity.
Qed.

Lemma fold_errors (up : Upstream) (n : nat) (tok bid : string) (gids : list string) (p : Presence)
    (g : string) :
  PyDict.get g (errors (guild_fold up n tok bid gids p)) <> None
  <-> PyDict.get g (errors p) <> None \/ In g (ids_of_kind KError (lookups_from up n tok bid gids)).
Proof.
  revert n p; induction gids as [|g0 r IH]; intros n p; simpl.
  - unfold ids_of_kind; simpl; tauto.
  - rewrite IH, classify_kind; unfold ids_of_kind in *; simpl.
    destruct (kind_of (up n (member_request tok bid g0))); simpl; try tauto.
    destruct (String.eqb_spec g0 g) as [->|Hne].
    + rewrite get_set_eq; split; [intros _; right; now left | intros _; left; discriminate].
    + rewrite get_set_neq by exact Hne. intuition congruence.
Qed.

Lemma fold_errors_entries (up : Upstream) (n : nat) (tok bid : string) (gids : list string)
    (p : Presence) :
  errors (guild_fold up n tok bid gids p)
  = fold_left (fun d '(k, v) => PyDict.set k v d) (error_entries (lookups_from up n tok bid gids))
      (errors p).
Proof.
  revert n p; induction gids as [|g0 r IH]; intros n p; simpl; [reflexivity|].
  rewrite IH, classify_kind; unfold error_entries; simpl.
  destruct (kind_of (up n (member_request tok bid g0))); reflexivity.
Qed.

Lemma ids_of_kind_in (k : Kind) (up : Upstream) (n : nat) (tok bid : string) (gids : list string)
    (g : string) :
  In g (ids_of_kind k (lookups_from up n tok bid gids)) -> In g gids.
Proof.
  unfold ids_of_kind; revert n; induction gids as [|g0 r IH]; intros n; simpl; [tauto|].
  destruct (kind_eqb _ k); simpl; [intros [H|H]; [now left | right; eauto] | intros H; right; eauto].
Qed.

Lemma fold_other (up : Upstream) (n : nat) (tok bid : string) (gids : list string) (p : Presence)
    (g : string) :
  ~ In g gids ->
  (In g (present (guild_fold up n tok bid gids p)) <-> In g (present p))
  /\ (In g (missing (guild_fold up n tok bid gids p)) <-> In g (missing p))
  /\ PyDict.get g (errors (guild_fold up n tok bid gids p)) = PyDict.get g (errors p).
Proof.
  intros Hg; split; [|split].
  - rewrite fold_present, in_app_iff.
    pose proof (ids_of_kind_in KPresent up n tok bid gids g); tauto.
  - rewrite fold_missing, in_app_iff.
    pose proof (ids_of_kind_in KMissing up n tok bid gids g); tauto.
  - revert n p; induction gids as [|g0 r IH]; intros n p; simpl; [reflexivity|].
    rewrite IH by (simpl in Hg; tauto).
    rewrite classify_kind; destruct (kind_of _); simpl; try reflexivity.
    apply get_set_neq; simpl in Hg; tauto.
Qed.

Lemma classify_other (g0 g : string) (o : Outcome) (p : Presence) :
  g0 <> g ->
  (In g (present (classify g0 o p)) <-> In g (present p))
  /\ (In g (missing (classify g0 o p)) <-> In g (missing p))
  /\ PyDict.get g (errors (classify g0 o p)) = PyDict.get g (errors p).
Proof.
  intros Hne; rewrite classify_kind; destruct (kind_of o); simpl;
    rewrite ?in_app_iff, ?get_set_neq by exact Hne; simpl; intuition congruence.
Qed.

Lemma classify_placed (g : string) (o : Outcome) (p : Presence) :
  ~ In g (present p) -> ~ In g (missing p) -> PyDict.get g (errors p) = None ->
  placed (classify g o p) g o.
Proof.
  intros Hp Hm He; unfold placed; rewrite classify_kind;
    destruct (kind_of o); simpl; rewrite ?in_app_iff, ?get_set_eq; simpl; intuition.
Qed.

Lemma fold_placed (up : Upstream) (n : nat) (tok bid : string) (gids : list string) (p : Presence) :
  NoDup gids ->
  (forall g, In g gids -> ~ In g (present p) /\ ~ In g (missing p) /\ PyDict.get g (errors p) = None) ->
  forall g o, In (g, o) (lookups_from up n tok bid gids) ->
  placed (guild_fold up n tok bid gids p) g o.
Proof.
  revert n p; induction gids as [|g0 r IH]; intros n p Hnd Hfresh g o Hin; simpl in *; [tauto|].
  apply NoDup_cons_iff in Hnd as [Hg0 Hnd].
  destruct Hin as [Heq|Hin].
  - injection Heq as <- <-.
    destruct (Hfresh g0 (or_introl eq_refl)) as (Hp & Hm & He).
    pose proof (classify_placed g0 (up n (member_request tok bid g0)) p Hp Hm He) as Hpl.
    destruct (fold_other up (S n) tok bid r (classify g0 (up n (member_request tok bid g0)) p) g0 Hg0)
      as (Ep & Em & Ee).
    unfold placed in *; destruct (kind_of _); rewrite Ep, Em, Ee; exact Hpl.
  - apply IH; [exact Hnd| |exact Hin].
    intros g1 Hg1.
    assert (Hne : g0 <> g1) by (intros ->; contradiction).
    destruct (classify_other g0 g1 (up n (member_request tok bid g0)) p Hne) as (Ep & Em & Ee).
    rewrite Ep, Em, Ee; apply Hfresh; now right.
Qed.

Lemma placed_count (p : Presence) (g : string) (o : Outcome) :
  placed p g o -> collections_count p g = 1.
Proof.
  unfold placed, collections_count.
  assert (Hex : forall l, existsb (String.eqb g) l = true <-> In g l).
  { intros l; rewrite existsb_exists; split.
    - intros (x & Hx & E); apply String.eqb_eq in E; now subst.
    - intros H; exists g; split; [exact H | apply String.eqb_refl]. }
  assert (Hnex : forall l, ~ In g l -> existsb (String.eqb g) l = false).
  { intros l H; destruct (existsb (String.eqb g) l) eqn:E; [apply Hex in E; contradiction | reflexivity]. }
  destruct (kind_of o); intros (H1 & H2 & H3); rewrite H3.
  - apply Hex in H1; now rewrite H1, (Hnex _ H2).
  - apply Hex in H2; now rewrite H2, (Hnex _ H1).
  - now rewrite (Hnex _ H1), (Hnex _ H2).
Qed.

Lemma lookups_from_fst (up : Upstream) (n : nat) (tok bid : string) (gids : list string) :
  map fst (lookups_from up n tok bid gids) = gids.
Proof.
  revert n; induction gids as [|g r IH]; intros n; simpl; [reflexivity|]; now rewrite IH.
Qed.

Lemma bot_guilds_status_run (env : Env) (gids : list string) (up : Upstream) :
  env_unset (DISCORD_BOT_TOKEN env) = false -> env_unset (DISCORD_BOT_ID env) = false ->
  run up (bot_guilds_status env gids)
  = (JsonResp 200 (presence_json (guild_fold up 0 (env_str (DISCORD_BOT_TOKEN env))
                                    (env_str (DISCORD_BOT_ID env)) gids empty_presence)),
     map (member_request (env_str (DISCORD_BOT_TOKEN env)) (env_str (DISCORD_BOT_ID env))) gids).
Proof.
  intros Ht Hi; unfold run, bot_guilds_status; rewrite Ht, Hi; apply run_guild_loop.
Qed.

(** ** Claim C2: [bot_guilds_status] *)

(** C2.  With the bot credentials configured, every ID is looked up, in
    input order, whatever the other lookups returned or raised, and each
    collection holds exactly the IDs whose own lookup had that outcome:
    a failing lookup only adds its ID to [errors]. *)
Theorem bot_guilds_status_failure_isolation (env : Env) (gids : list string) (up : Upstream) :
  env_unset (DISCORD_BOT_TOKEN env) = false -> env_unset (DISCORD_BOT_ID env) = false ->
  exists p,
    run up (bot_guilds_status env gids)
      = (JsonResp 200 (presence_json p),
         map (member_request (env_str (DISCORD_BOT_TOKEN env)) (env_str (DISCORD_BOT_ID env))) gids)
    /\ present p = ids_of_kind KPresent (lookups up env gids)
    /\ missing p = ids_of_kind KMissing (lookups up env gids)
    /\ (forall g, PyDict.get g (errors p) <> None <-> In g (ids_of_kind KError (lookups up env gids))).
Proof.
  intros Ht Hi.
  exists (guild_fold up 0 (env_str (DISCORD_BOT_TOKEN env)) (env_str (DISCORD_BOT_ID env))
            gids empty_presence).
  rewrite (bot_guilds_status_run env gids up Ht Hi).
  split; [reflexivity|]; split; [|split].
  - apply fold_present.
  - apply fold_missing.
  - intros g; rewrite fold_errors; simpl; intuition.
Qed.

Lemma bot_guilds_status_failure_isolation_witness :
  env_unset (DISCORD_BOT_TOKEN env_bot) = false /\ env_unset (DISCORD_BOT_ID env_bot) = false
  /\ exists p,
    run up_isolation (bot_guilds_status env_bot ["A"; "B"; "C"])
      = (JsonResp 200 (presence_json p),
         map (member_request (env_str (DISCORD_BOT_TOKEN env_bot)) (env_str (DISCORD_BOT_ID env_bot)))
           ["A"; "B"; "C"])
    /\ present p = ids_of_kind KPresent (lookups up_isolation env_bot ["A"; "B"; "C"])
    /\ missing p = ids_of_kind KMissing (lookups up_isolation env_bot ["A"; "B"; "C"])
    /\ (forall g, PyDict.get g (errors p) <> None
                  <-> In g (ids_of_kind KError (lookups up_isolation env_bot ["A"; "B"; "C"]))).
Proof.
  split; [reflexivity|]; split; [reflexivity|].
  apply (bot_guilds_status_failure_isolation env_bot ["A"; "B"; "C"] up_isolation eq_refl eq_refl).
Defined.

(** The spec's scenario: the exception on "B" leaves "A" and "C" classified. *)
Example bot_guilds_status_isolation_example :
  result_of up_isolation (bot_guilds_status env_bot ["A"; "B"; "C"])
  = JsonResp 200 (presence_json (mkPresence ["A"] ["C"] [("B", "Read timed out.")])).
Proof. vm_compute; reflexivity. Qed.

(** ** The OAuth handlers *)

Ltac split_ifs :=
  repeat match goal with
         | |- context [if ?b then _ else _] => let E := fresh "E" in destruct b eqn:E
         end.

Lemma oauth_exchange_called (env : Env) (body : Body) (up : Upstream) :
  calls_of up (oauth_exchange env body) = 1 ->
  exists q, run up (oauth_exchange env body) = (token_reply (up 0 q), [q]).
Proof.
  unfold calls_of, run, oauth_exchange.
  destruct (request_dict body) as [data|err]; [|discriminate]; cbv zeta.
  split_ifs; try discriminate.
  intros _; eexists; reflexivity.
Qed.

Lemma bearer_dispatch (auth : option string) :
  (bearer_rejected auth = true -> oauth_me auth = Ret missing_bearer /\ oauth_guilds auth = Ret missing_bearer)
  /\ (forall a, auth = Some a -> bearer_rejected auth = false -> bearer_token a = None ->
        oauth_me auth = Ret (Raised IndexError) /\ oauth_guilds auth = Ret (Raised IndexError))
  /\ (forall a token, auth = Some a -> bearer_rejected auth = false -> bearer_token a = Some token ->
        oauth_me auth = Call (me_request token) (fun o => Ret (me_reply o))
        /\ oauth_guilds auth = Call (guilds_request token) (fun o => Ret (guilds_reply o))).
Proof.
  unfold oauth_me, oauth_guilds; split; [|split].
  - intros H; now rewrite H.
  - intros a -> H Ht; rewrite H, Ht; split; reflexivity.
  - intros a token -> H Ht; rewrite H, Ht; split; reflexivity.
Qed.

Lemma oauth_me_called (auth : option string) (up : Upstream) :
  calls_of up (oauth_me auth) = 1 ->
  exists q, run up (oauth_me auth) = (me_reply (up 0 q), [q]).
Proof.
  destruct (bearer_dispatch auth) as (H1 & H2 & H3).
  destruct (bearer_rejected auth) eqn:Er.
  - now rewrite (proj1 (H1 eq_refl)).
  - destruct auth as [a|]; [|discriminate].
    destruct (bearer_token a) as [token|] eqn:Et.
    + rewrite (proj1 (H3 a token eq_refl eq_refl Et)); intros _; eexists; reflexivity.
    + now rewrite (proj1 (H2 a eq_refl eq_refl Et)).
Qed.

Lemma first_truthy_opt_or (a b : option Json) (d : Json) :
  first_truthy [a; b] d = opt_or a (opt_or b d).
Proof.
  unfold first_truthy, opt_or, py_or; simpl.
  destruct a as [ja|], b as [jb|]; try reflexivity;
    destruct (truthy ja); reflexivity.
Qed.

(** ** Claims C3, C4 and C5: [oauth_exchange] *)

(** A rejection whose body decodes to a JSON object: a status other than
    200 or an [error] key gives the upstream status with the error taken
    from [error_description], else [error] (the first truthy one), else
    ["Unknown error"], next to the raw body. *)
Theorem oauth_exchange_rejection (env : Env) (body : Body) (up : Upstream)
    (r : Response) (kvs : list (string * Json)) :
  calls_of up (oauth_exchange env body) = 1 ->
  (forall q, up 0 q = Reached r) ->
  json_body r = Some (JObj kvs) ->
  status_code r <> 200%Z \/ obj_get "error" kvs <> None ->
  result_of up (oauth_exchange env body)
  = JsonResp (status_code r) (JObj [("error", rejection_message kvs); ("raw", JObj kvs)]).
Proof.
  intros Hc Hup Hj Hrej.
  destruct (oauth_exchange_called env body up Hc) as [q Hrun].
  unfold result_of; rewrite Hrun, Hup; simpl.
  rewrite Hj; unfold exchange_answer, rejection_message; rewrite first_truthy_opt_or.
  destruct (Z.eqb_spec (status_code r) 200) as [E|E]; simpl; [|reflexivity].
  destruct Hrej as [Hne|Hin]; [contradiction|].
  destruct (obj_get "error" kvs) eqn:Eg; [reflexivity|contradiction].
Qed.

Lemma oauth_exchange_rejection_witness :
  calls_of (up_const (Reached resp_invalid_grant)) (oauth_exchange env_oauth exchange_body) = 1
  /\ result_of (up_const (Reached resp_invalid_grant)) (oauth_exchange env_oauth exchange_body)
     = JsonResp 400 (JObj [("error", JStr "Invalid code in request.");
                           ("raw", JObj [("error", JStr "invalid_grant");
                                         ("error_description", JStr "Invalid code in request.")])]).
Proof.
  split; [reflexivity|].
  apply (oauth_exchange_rejection env_oauth exchange_body (up_const (Reached resp_invalid_grant))
           resp_invalid_grant
           [("error", JStr "invalid_grant"); ("error_description", JStr "Invalid code in request.")]).
  - reflexivity.
  - intros q; reflexivity.
  - reflexivity.
  - left; discriminate.
Defined.

(** C3.  A rejection (status other than 200) whose body decodes to a JSON
    value that is not an object ([[]], a string, a number, [null]) is not
    surfaced: [data.get] raises [AttributeError], so Flask answers its
    HTML 500 page instead of the JSON envelope with the upstream status
    that the handler means to return (its comment: "Always return
    JSON"). *)
Theorem oauth_exchange_non_object_rejection_raises (env : Env) (body : Body) (up : Upstream)
    (r : Response) (j : Json) :
  calls_of up (oauth_exchange env body) = 1 ->
  (forall q, up 0 q = Reached r) ->
  json_body r = Some j ->
  (forall kvs, j <> JObj kvs) ->
  status_code r <> 200%Z ->
  result_of up (oauth_exchange env body) = Raised AttributeError
  /\ http_status (result_of up (oauth_exchange env body)) = 500%Z.
Proof.
  intros Hc Hup Hj Hno Hs.
  destruct (oauth_exchange_called env body up Hc) as [q Hrun].
  unfold result_of; rewrite Hrun, Hup; simpl; rewrite Hj.
  unfold exchange_answer; apply Z.eqb_neq in Hs; rewrite Hs; simpl.
  destruct j as [| | | | |kvs]; try (split; reflexivity).
  exfalso; exact (Hno kvs eq_refl).
Qed.

Lemma oauth_exchange_non_object_rejection_raises_witness :
  result_of (up_const (Reached resp_list_400)) (oauth_exchange env_oauth exchange_body)
  = Raised AttributeError
  /\ http_status (result_of (up_const (Reached resp_list_400)) (oauth_exchange env_oauth exchange_body))
     = 500%Z.
Proof.
  apply (oauth_exchange_non_object_rejection_raises env_oauth exchange_body
           (up_const (Reached resp_list_400)) resp_list_400 (JArr [])); try reflexivity.
  - intros kvs; discriminate.
  - discriminate.
Defined.

(** C4 (amended).  When the request body is JSON and [request.json or {}]
    is an object (the body decodes to an object or to a falsy value): a
    missing or falsy (e.g. empty) [code] or [redirect_uri] gives 400
    without an outbound call; otherwise an unset or empty client id or
    secret gives 500 without an outbound call.  Every other body also
    fails without an outbound call: 415 without a JSON body, 400 for JSON
    that does not decode, and 500 ([AttributeError] in [data.get]) for a
    truthy JSON value that is not an object. *)
Theorem oauth_exchange_preconditions (env : Env) (body : Body) (up : Upstream) :
  (forall j kvs, body = JsonBody j -> py_or j (JObj []) = JObj kvs ->
     ((truthy_opt (obj_get "code" kvs) = false \/ truthy_opt (obj_get "redirect_uri" kvs) = false) ->
        run up (oauth_exchange env body) = (JsonResp 400 (err_body "missing code or redirect_uri"), []))
     /\ (truthy_opt (obj_get "code" kvs) = true -> truthy_opt (obj_get "redirect_uri" kvs) = true ->
         (env_unset (DISCORD_CLIENT_ID env) = true \/ env_unset (DISCORD_CLIENT_SECRET env) = true) ->
         http_status (result_of up (oauth_exchange env body)) = 500%Z
         /\ calls_of up (oauth_exchange env body) = 0))
  /\ (body = NoJson -> run up (oauth_exchange env body) = (Aborted 415, []))
  /\ (body = BadJson -> run up (oauth_exchange env body) = (Aborted 400, []))
  /\ (forall j, body = JsonBody j -> truthy j = true -> (forall kvs, j <> JObj kvs) ->
        run up (oauth_exchange env body) = (Raised AttributeError, [])).
Proof.
  split; [|split; [|split]].
  - intros j kvs -> Hj.
    assert (Hd : request_dict (JsonBody j) = inl kvs) by (unfold request_dict; simpl; now rewrite Hj).
    unfold result_of, calls_of, run, oauth_exchange; rewrite Hd; cbv zeta; split.
    + intros [H|H]; rewrite H; simpl; [reflexivity|].
      now rewrite orb_true_r.
    + intros Hc Hr Henv; rewrite Hc, Hr; simpl.
      destruct Henv as [H|H]; rewrite H; simpl; [|rewrite orb_true_r]; split; reflexivity.
  - intros ->; reflexivity.
  - intros ->; reflexivity.
  - intros j -> Ht Hno.
    unfold run, oauth_exchange, request_dict, py_or; simpl; rewrite Ht.
    destruct j as [| | | | |kvs]; try reflexivity.
    exfalso; exact (Hno kvs eq_refl).
Qed.

(** Both checks: no [redirect_uri] gives 400; a complete request with no
    client credentials configured gives 500; neither calls out. *)
Lemma oauth_exchange_preconditions_witness :
  run (up_const (Transport "unused")) (oauth_exchange env_oauth (JsonBody (JObj [("code", JStr "abc123")])))
    = (JsonResp 400 (err_body "missing code or redirect_uri"), [])
  /\ http_status (result_of (up_const (Transport "unused")) (oauth_exchange (mkEnv None None None None) exchange_body))
     = 500%Z
  /\ calls_of (up_const (Transport "unused")) (oauth_exchange (mkEnv None None None None) exchange_body) = 0.
Proof.
  split.
  - apply (proj1 (proj1 (oauth_exchange_preconditions env_oauth (JsonBody (JObj [("code", JStr "abc123")]))
                           (up_const (Transport "unused")))
                    _ [("code", JStr "abc123")] eq_refl eq_refl)).
    right; reflexivity.
  - apply (proj2 (proj1 (oauth_exchange_preconditions (mkEnv None None None None) exchange_body
                           (up_const (Transport "unused")))
                    _ [("code", JStr "abc123");
                       ("redirect_uri", JStr "https://whiteout-survival.vercel.app/callback")]
                    eq_refl eq_refl)); try reflexivity.
    left; reflexivity.
Defined.

(** C4 as stated fails: a JSON body that is truthy but not an object
    (here [[1]]) carries no [code], yet [data.get] raises
    [AttributeError] and Flask answers 500 instead of 400. *)
Lemma oauth_exchange_list_request_raises :
  run (up_const (Transport "unused")) (oauth_exchange env_oauth (JsonBody (JArr [JNum 1])))
    = (Raised AttributeError, [])
  /\ http_status (result_of (up_const (Transport "unused")) (oauth_exchange env_oauth (JsonBody (JArr [JNum 1]))))
     <> 400%Z.
Proof.
  split; [reflexivity|]; vm_compute; discriminate.
Qed.

(** C5 (amended).  When the call reaches Discord and the body does not
    decode as JSON, the answer carries Discord's own status code (not a
    fixed 502) and the raw upstream text. *)
Theorem oauth_exchange_invalid_body (env : Env) (body : Body) (up : Upstream) (r : Response) :
  calls_of up (oauth_exchange env body) = 1 ->
  (forall q, up 0 q = Reached r) ->
  json_body r = None ->
  result_of up (oauth_exchange env body)
  = JsonResp (status_code r) (JObj [("error", JStr "Discord token endpoint returned invalid response");
                                    ("raw", JStr (text r))]).
Proof.
  intros Hc Hup Hj.
  destruct (oauth_exchange_called env body up Hc) as [q Hrun].
  unfold result_of; rewrite Hrun, Hup; simpl; now rewrite Hj.
Qed.

Lemma oauth_exchange_invalid_body_witness :
  calls_of (up_const (Reached resp_html_200)) (oauth_exchange env_oauth exchange_body) = 1
  /\ result_of (up_const (Reached resp_html_200)) (oauth_exchange env_oauth exchange_body)
     = JsonResp 200 (JObj [("error", JStr "Discord token endpoint returned invalid response");
                           ("raw", JStr "<html>maintenance</html>")]).
Proof.
  split; [reflexivity|].
  apply (oauth_exchange_invalid_body env_oauth exchange_body (up_const (Reached resp_html_200))
           resp_html_200 eq_refl (fun q => eq_refl) eq_refl).
Defined.

(** C5 as stated fails: a 200 with a body that is not JSON is answered
    with status 200, not 502. *)
Lemma oauth_exchange_invalid_body_not_502 :
  http_status (result_of (up_const (Reached resp_html_200)) (oauth_exchange env_oauth exchange_body))
  <> 502%Z.
Proof.
  vm_compute; discriminate.
Qed.

(** ** Claims C6, C7 and C9: [oauth_me] and [oauth_guilds] *)

(** C6 (amended).  [oauth_guilds] has [oauth_me]'s header check (401 for
    an absent or non-[Bearer] header, without a call), the same token
    extraction, and the same answer to a transport failure (502); once
    Discord answers, it relays Discord's raw body, status and headers
    unparsed, where [oauth_me] decodes the body. *)
Theorem oauth_guilds_error_mapping (auth : option string) (up : Upstream) :
  (bearer_rejected auth = true ->
     run up (oauth_guilds auth) = (missing_bearer, []) /\ run up (oauth_me auth) = (missing_bearer, []))
  /\ (forall a, auth = Some a -> bearer_rejected auth = false -> bearer_token a = None ->
        run up (oauth_guilds auth) = (Raised IndexError, [])
        /\ run up (oauth_me auth) = (Raised IndexError, []))
  /\ (forall a token, auth = Some a -> bearer_rejected auth = false -> bearer_token a = Some token ->
        run up (oauth_guilds auth) = (guilds_reply (up 0 (guilds_request token)), [guilds_request token])
        /\ run up (oauth_me auth) = (me_reply (up 0 (me_request token)), [me_request token]))
  /\ (forall msg, guilds_reply (Transport msg) = me_reply (Transport msg)
                  /\ http_status (guilds_reply (Transport msg)) = 502%Z)
  /\ (forall r, guilds_reply (Reached r) = RawResp (status_code r) (text r) (resp_headers r)).
Proof.
  destruct (bearer_dispatch auth) as (H1 & H2 & H3).
  split; [|split; [|split; [|split]]].
  - intros H; destruct (H1 H) as [-> ->]; split; reflexivity.
  - intros a Ha Hr Ht; destruct (H2 a Ha Hr Ht) as [-> ->]; split; reflexivity.
  - intros a token Ha Hr Ht; destruct (H3 a token Ha Hr Ht) as [-> ->]; split; reflexivity.
  - intros msg; split; reflexivity.
  - intros r; reflexivity.
Qed.

(** C6 as stated fails: with the same 200 answer whose body is not JSON,
    [oauth_guilds] answers 200 and [oauth_me] answers 502. *)
Lemma oauth_guilds_invalid_body_not_502 :
  http_status (result_of (up_const (Reached resp_html_200)) (oauth_guilds auth_ok)) = 200%Z
  /\ http_status (result_of (up_const (Reached resp_html_200)) (oauth_me auth_ok)) = 502%Z
  /\ http_status (result_of (up_const (Reached resp_html_200)) (oauth_guilds auth_ok))
     <> http_status (result_of (up_const (Reached resp_html_200)) (oauth_me auth_ok)).
Proof.
  split; [reflexivity|]; split; [reflexivity|]; vm_compute; discriminate.
Qed.

(** C7.  The header ["Bearer "] passes the check
    [auth.lower().startswith('bearer ')], but [auth.split(None, 1)] is
    [['Bearer']], so indexing [[1]] raises [IndexError]: both
    [oauth_me] and [oauth_guilds] answer 500, with no outbound call,
    rather than calling Discord with an empty token or answering 401. *)
Theorem bearer_empty_token_raises (up : Upstream) :
  bearer_rejected (Some "Bearer ") = false
  /\ py_split_none_1 "Bearer " = ["Bearer"]
  /\ run up (oauth_me (Some "Bearer ")) = (Raised IndexError, [])
  /\ run up (oauth_guilds (Some "Bearer ")) = (Raised IndexError, [])
  /\ http_status (Raised IndexError) = 500%Z.
Proof.
  repeat split; reflexivity.
Qed.

(** When [oauth_me] reaches Discord and the body decodes to a JSON
    object, that object is answered with status 200 whatever Discord's
    status was (an error payload such as a 401 included). *)
Theorem oauth_me_relays_as_200 (auth : option string) (up : Upstream) (r : Response)
    (kvs : list (string * Json)) :
  calls_of up (oauth_me auth) = 1 ->
  (forall q, up 0 q = Reached r) ->
  json_body r = Some (JObj kvs) ->
  result_of up (oauth_me auth) = JsonResp 200 (JObj kvs).
Proof.
  intros Hc Hup Hj.
  destruct (oauth_me_called auth up Hc) as [q Hrun].
  unfold result_of; rewrite Hrun, Hup; simpl; unfold me_answer; now rewrite Hj.
Qed.

Lemma oauth_me_relays_as_200_witness :
  calls_of (up_const (Reached resp_unauthorized)) (oauth_me auth_ok) = 1
  /\ status_code resp_unauthorized = 401%Z
  /\ result_of (up_const (Reached resp_unauthorized)) (oauth_me auth_ok)
     = JsonResp 200 (JObj [("message", JStr "401: Unauthorized"); ("code", JNum 0)]).
Proof.
  split; [reflexivity|]; split; [reflexivity|].
  apply (oauth_me_relays_as_200 auth_ok (up_const (Reached resp_unauthorized)) resp_unauthorized
           [("message", JStr "401: Unauthorized"); ("code", JNum 0)] eq_refl (fun q => eq_refl) eq_refl).
Defined.

(** C9.  When [oauth_me] reaches Discord and the body decodes to JSON that
    is not an object (a list, a string, a number, ...), the logging call
    [response_data.get('username', 'unknown')] on line 144 raises
    [AttributeError], whatever Discord's status: the answer is a 500
    error page, not the decoded JSON relayed with status 200. *)
Theorem oauth_me_non_object_body_raises (auth : option string) (up : Upstream) (r : Response)
    (j : Json) :
  calls_of up (oauth_me auth) = 1 ->
  (forall q, up 0 q = Reached r) ->
  json_body r = Some j ->
  (forall kvs, j <> JObj kvs) ->
  result_of up (oauth_me auth) = Raised AttributeError
  /\ http_status (result_of up (oauth_me auth)) = 500%Z.
Proof.
  intros Hc Hup Hj Hno.
  destruct (oauth_me_called auth up Hc) as [q Hrun].
  unfold result_of; rewrite Hrun, Hup; simpl; unfold me_answer; rewrite Hj.
  destruct j as [| | | | |kvs]; try (split; reflexivity).
  exfalso; exact (Hno kvs eq_refl).
Qed.

Lemma oauth_me_non_object_body_raises_witness :
  calls_of (up_const (Reached resp_list_200)) (oauth_me auth_ok) = 1
  /\ json_body resp_list_200 = Some (JArr [])
  /\ result_of (up_const (Reached resp_list_200)) (oauth_me auth_ok) = Raised AttributeError
  /\ http_status (result_of (up_const (Reached resp_list_200)) (oauth_me auth_ok)) = 500%Z.
Proof.
  split; [reflexivity|]; split; [reflexivity|].
  apply (oauth_me_non_object_body_raises auth_ok (up_const (Reached resp_list_200)) resp_list_200
           (JArr []) eq_refl (fun q => eq_refl) eq_refl).
  intros kvs; discriminate.
Defined.

(** ** The stats store *)

Lemma get_set (k k2 : string) {V} (v : V) (d : PyDict.t V) :
  PyDict.get k2 (PyDict.set k v d) = if String.eqb k k2 then Some v else PyDict.get k2 d.
Proof.
  destruct (String.eqb_spec k k2) as [<-|Hne]; [apply get_set_eq | now apply get_set_neq].
Qed.

Lemma fold_set_get {V} (k : string) (l : list (string * V)) (d : PyDict.t V) :
  PyDict.get k (fold_left (fun acc '(k', v) => PyDict.set k' v acc) l d)
  = match last_binding k l with Some v => Some v | None => PyDict.get k d end.
Proof.
  revert d; induction l as [|[k' v] r IH]; intros d; simpl; [reflexivity|].
  rewrite IH, get_set.
  destruct (last_binding k r); [reflexivity|].
  destruct (String.eqb k' k); reflexivity.
Qed.

Lemma obj_get_last (k : string) (kvs : list (string * Json)) :
  obj_get k kvs = last_binding k kvs.
Proof.
  unfold obj_get, PyDict.of_pairs; rewrite fold_set_get; simpl.
  destruct (last_binding k kvs); reflexivity.
Qed.

Lemma keys_set_in {V} (x k : string) (v : V) (d : PyDict.t V) :
  In x (PyDict.keys (PyDict.set k v d)) <-> x = k \/ In x (PyDict.keys d).
Proof.
  unfold PyDict.keys; induction d as [|[k' v'] r IH]; simpl; [intuition congruence|].
  destruct (String.eqb_spec k' k) as [->|Hne]; simpl; [intuition congruence|].
  rewrite IH; tauto.
Qed.

Lemma nodup_set {V} (k : string) (v : V) (d : PyDict.t V) :
  NoDup (PyDict.keys d) -> NoDup (PyDict.keys (PyDict.set k v d)).
Proof.
  unfold PyDict.keys; induction d as [|[k' v'] r IH]; simpl; intros Hnd.
  - constructor; [simpl; tauto | constructor].
  - apply NoDup_cons_iff in Hnd as [Hk' Hnd].
    destruct (String.eqb_spec k' k) as [->|Hne]; simpl; constructor; try assumption.
    + pose proof (keys_set_in k' k v r) as Hin; unfold PyDict.keys in Hin.
      rewrite Hin; intros [E|E]; [congruence | contradiction].
    + now apply IH.
Qed.

Lemma nodup_of_pairs {V} (l : list (string * V)) : NoDup (PyDict.keys (PyDict.of_pairs l)).
Proof.
  unfold PyDict.of_pairs.
  assert (H : forall d : PyDict.t V, NoDup (PyDict.keys d) ->
            NoDup (PyDict.keys (fold_left (fun acc '(k', v) => PyDict.set k' v acc) l d))).
  { induction l as [|[k v] r IH]; intros d Hd; simpl; [exact Hd|].
    apply IH, nodup_set, Hd. }
  apply H; constructor.
Qed.

Lemma last_binding_nodup {V} (k : string) (d : PyDict.t V) :
  NoDup (PyDict.keys d) -> last_binding k d = PyDict.get k d.
Proof.
  assert (Hnone : forall r : PyDict.t V, ~ In k (PyDict.keys r) -> last_binding k r = None).
  { unfold PyDict.keys; induction r as [|[k' v] r IH]; simpl; intros H; [reflexivity|].
    rewrite IH by tauto.
    destruct (String.eqb_spec k' k); [tauto | reflexivity]. }
  unfold PyDict.keys; induction d as [|[k' v] r IH]; simpl; intros Hnd; [reflexivity|].
  apply NoDup_cons_iff in Hnd as [Hk' Hnd].
  destruct (String.eqb_spec k' k) as [->|Hne].
  - now rewrite Hnone by exact Hk'.
  - rewrite IH by exact Hnd.
    destruct (PyDict.get k r); reflexivity.
Qed.

(** ** Dicts with keys of any hashable value *)

(** What [key_eqb] compares. *)
Definition key_rep (k : Key) : string + option Z :=
  match k with
  | KStr s => inl s
  | KInt z => inr (Some z)
  | KBool b => inr (Some (if b then 1 else 0)%Z)
  | KNone => inr None
  end.

Lemma key_eqb_rep (a b : Key) : key_eqb a b = true <-> key_rep a = key_rep b.
Proof.
  destruct a as [s|z|[]|], b as [t|y|[]|]; cbv [key_eqb key_rep key_num];
    try (destruct (String.eqb_spec s t); subst);
    try (match goal with |- context [Z.eqb ?x ?y] => destruct (Z.eqb_spec x y); subst end);
    split; intros H; try reflexivity; try discriminate; try congruence.
Qed.

Lemma key_eqb_refl (k : Key) : key_eqb k k = true.
Proof. now apply key_eqb_rep. Qed.

Lemma key_eqb_false (a b : Key) : key_eqb a b = false <-> key_rep a <> key_rep b.
Proof.
  rewrite <- key_eqb_rep; destruct (key_eqb a b); split; congruence.
Qed.

Lemma key_eqb_str (s t : string) : key_eqb (KStr s) (KStr t) = String.eqb s t.
Proof. reflexivity. Qed.

(** Only a string equals a string. *)
Lemma key_eqb_str_l (s : string) (k : Key) : key_eqb (KStr s) k = true -> k = KStr s.
Proof.
  rewrite key_eqb_rep; destruct k as [t| | |]; simpl; try discriminate.
  now intros [= ->].
Qed.

Lemma kget_set (k k2 : Key) {V} (v : V) (d : KDict.t V) :
  KDict.get k2 (KDict.set k v d) = if key_eqb k k2 then Some v else KDict.get k2 d.
Proof.
  induction d as [|[k' v'] r IH]; simpl; [reflexivity|].
  destruct (key_eqb k' k) eqn:E1; simpl.
  - apply key_eqb_rep in E1.
    destruct (key_eqb k' k2) eqn:E2, (key_eqb k k2) eqn:E3; try reflexivity; exfalso.
    + apply key_eqb_rep in E2; apply key_eqb_false in E3; congruence.
    + apply key_eqb_false in E2; apply key_eqb_rep in E3; congruence.
  - rewrite IH.
    destruct (key_eqb k' k2) eqn:E2, (key_eqb k k2) eqn:E3; try reflexivity.
    apply key_eqb_rep in E2, E3; apply key_eqb_false in E1; congruence.
Qed.

Lemma kget_set_keeps {V} (k k' : Key) (v : V) (d : KDict.t V) :
  KDict.get k d <> None -> KDict.get k (KDict.set k' v d) <> None.
Proof.
  rewrite kget_set; destruct (key_eqb k' k); [discriminate | exact id].
Qed.

Lemma kset_same {V} (k : Key) (v : V) (d : KDict.t V) :
  KDict.get k d = Some v -> KDict.set k v d = d.
Proof.
  induction d as [|[k' v'] r IH]; simpl; [discriminate|].
  destruct (key_eqb k' k).
  - now intros [= ->].
  - intros H; now rewrite (IH H).
Qed.

Lemma kset_keys_in {V} (x k : Key) (v : V) (d : KDict.t V) :
  In x (KDict.keys d) -> In x (KDict.keys (KDict.set k v d)).
Proof.
  unfold KDict.keys; induction d as [|[k' v'] r IH]; simpl; [tauto|].
  destruct (key_eqb k' k); simpl; intuition.
Qed.

Lemma kset_str_keys {V} (s : string) (v : V) (d : KDict.t V) :
  str_keys d = true -> str_keys (KDict.set (KStr s) v d) = true.
Proof.
  unfold str_keys; induction d as [|[k' v'] r IH]; simpl; [reflexivity|].
  intros H; apply andb_true_iff in H as [Hk Hr].
  destruct (key_eqb k' (KStr s)); simpl; rewrite Hk; simpl; [exact Hr | now apply IH].
Qed.

(** The fold [dict.update] does for an object patch. *)
Definition merge_obj (kvs : list (string * Json)) (d : KDict.t Json) : KDict.t Json :=
  fold_left (fun acc '(k, v) => KDict.set (KStr k) v acc) (PyDict.of_pairs kvs) d.

Lemma kfold_set_get (k : Key) (l : list (string * Json)) (d : KDict.t Json) :
  KDict.get k (fold_left (fun acc '(k', v) => KDict.set (KStr k') v acc) l d)
  = match k with
    | KStr s => match last_binding s l with Some v => Some v | None => KDict.get k d end
    | _ => KDict.get k d
    end.
Proof.
  revert d; induction l as [|[k' v] r IH]; intros d; simpl.
  - destruct k; reflexivity.
  - rewrite IH, kget_set.
    destruct k as [s| | |]; try reflexivity.
    rewrite key_eqb_str; destruct (last_binding s r); [reflexivity|].
    destruct (String.eqb k' s); reflexivity.
Qed.

Lemma merge_obj_get (k : Key) (kvs : list (string * Json)) (d : KDict.t Json) :
  KDict.get k (merge_obj kvs d)
  = match k with
    | KStr s => match obj_get s kvs with Some v => Some v | None => KDict.get k d end
    | _ => KDict.get k d
    end.
Proof.
  unfold merge_obj; rewrite kfold_set_get.
  destruct k as [s| | |]; try reflexivity.
  now rewrite last_binding_nodup by apply nodup_of_pairs.
Qed.

Lemma merge_obj_str_keys (kvs : list (string * Json)) (d : KDict.t Json) :
  str_keys d = true -> str_keys (merge_obj kvs d) = true.
Proof.
  unfold merge_obj; generalize (PyDict.of_pairs kvs) as l.
  intros l; revert d; induction l as [|[k v] r IH]; intros d Hd; simpl; [exact Hd|].
  apply IH, kset_str_keys, Hd.
Qed.

Lemma merge_obj_keys_in (x : Key) (kvs : list (string * Json)) (d : KDict.t Json) :
  In x (KDict.keys d) -> In x (KDict.keys (merge_obj kvs d)).
Proof.
  unfold merge_obj; generalize (PyDict.of_pairs kvs) as l.
  intros l; revert d; induction l as [|[k v] r IH]; intros d Hd; simpl; [exact Hd|].
  apply IH, kset_keys_in, Hd.
Qed.

Lemma kdict_json_str (d : KDict.t Json) :
  str_keys d = true -> kdict_json d = Some (JObj (kdict_members d)).
Proof.
  unfold str_keys, kdict_json; destruct d as [|[k0 v0] r]; [reflexivity|].
  intros H; pose proof H as H0; simpl in H0; apply andb_true_iff in H0 as [Hk0 _].
  apply Nat.eqb_eq in Hk0; rewrite Hk0, H; reflexivity.
Qed.

(** ** The whole view on string IDs *)

Lemma lift_set (k : string) (v : string) (e : PyDict.t string) :
  KDict.set (KStr k) v (lift_errors e) = lift_errors (PyDict.set k v e).
Proof.
  induction e as [|[k' v'] r IH]; simpl; [reflexivity|].
  destruct (String.eqb_spec k' k) as [->|_]; simpl; [reflexivity|]; now rewrite IH.
Qed.

Lemma classify_lift (g : string) (o : Outcome) (p : Presence) :
  classify_any (JStr g) o (lift_presence p) = Some (lift_presence (classify g o p)).
Proof.
  unfold classify_any, lift_presence; destruct o as [r|msg]; simpl.
  - destruct (status_code r =? 200)%Z; [simpl; now rewrite map_app|].
    destruct (status_code r =? 404)%Z; [simpl; now rewrite map_app|].
    simpl; now rewrite lift_set.
  - now rewrite lift_set.
Qed.

Lemma lift_errors_json (e : PyDict.t string) :
  kdict_json (map (fun '(k, v) => (k, JStr v)) (lift_errors e))
  = Some (JObj (map (fun '(k, v) => (k, JStr v)) e)).
Proof.
  rewrite kdict_json_str.
  - f_equal; f_equal; induction e as [|[k v] r IH]; simpl; [reflexivity|]; now rewrite IH.
  - induction e as [|[k v] r IH]; simpl; [reflexivity|]; exact IH.
Qed.

Lemma loop_lift (up : Upstream) (n : nat) (tok bid : string) (gids : list string) (p : Presence) :
  run_from up n (guild_loop_any tok bid (map JStr gids) (lift_presence p))
  = run_from up n (guild_loop tok bid gids p).
Proof.
  revert n p; induction gids as [|g r IH]; intros n p; simpl.
  - unfold gpresence_json; simpl; now rewrite lift_errors_json.
  - now rewrite classify_lift, IH.
Qed.

(** On a [guild_ids] that is a JSON list of strings, absent or falsy, or a
    non-empty string, the view runs as the loop over the string IDs. *)
Lemma handler_string_ids (env : Env) (body : Body) (up : Upstream)
    (data : list (string * Json)) (gids : list string) :
  request_dict body = inl data ->
  obj_get "guild_ids" data = Some (JArr (map JStr gids))
  \/ (gids = [] /\ truthy_opt (obj_get "guild_ids" data) = false)
  \/ (exists s, obj_get "guild_ids" data = Some (JStr s) /\ s <> ""
                /\ gids = map (fun c => String c EmptyString) (list_ascii_of_string s)) ->
  run up (bot_guilds_status_handler env body) = run up (bot_guilds_status env gids).
Proof.
  intros Hd Hg.
  assert (Hit : exists g, opt_or (obj_get "guild_ids" data) (JArr []) = g
                          /\ py_iter g = Some (map JStr gids)).
  { destruct Hg as [Hg|[[-> Hf]|(s & Hg & Hne & ->)]].
    - rewrite Hg; eexists; split; [reflexivity|].
      unfold opt_or, py_or; destruct (truthy (JArr (map JStr gids))) eqn:E; [reflexivity|].
      destruct gids; [reflexivity|discriminate].
    - eexists; split; [reflexivity|].
      destruct (obj_get "guild_ids" data) as [g|]; simpl in *; [|reflexivity].
      unfold py_or; now rewrite Hf.
    - rewrite Hg; eexists; split; [reflexivity|].
      unfold opt_or, py_or; simpl.
      apply String.eqb_neq in Hne; rewrite Hne; simpl.
      now rewrite map_map. }
  destruct Hit as (g & Eg & Hi).
  unfold run, bot_guilds_status_handler, bot_guilds_status; rewrite Hd; cbv zeta; rewrite Eg.
  destruct (env_unset (DISCORD_BOT_TOKEN env)); [reflexivity|].
  destruct (env_unset (DISCORD_BOT_ID env)); [reflexivity|].
  rewrite Hi; apply (loop_lift up 0 _ _ gids empty_presence).
Qed.

(** ** Claim C1: [bot_guilds_status] *)

(** C1 (amended).  For a request whose [guild_ids] is a JSON list of
    strings (or is absent or falsy: no IDs), with both bot credentials
    configured, every input ID is looked up once per occurrence, in input
    order, and each lookup classifies its own ID: [present] lists, in
    order, the IDs whose lookup answered 200, [missing] those answered
    404, and [errors] is the dict written by [errors[id] = ...] for each
    other lookup in call order, with
    ["status=<code> body=<first 300 characters>"] or the exception message
    (a later entry for the same ID replaces an earlier one).  When the IDs
    are pairwise distinct, every ID is in exactly one collection, the one
    its lookup names.  No IDs give three empty collections and no
    outbound call. *)
Theorem bot_guilds_status_classifies (env : Env) (body : Body) (data : list (string * Json))
    (gids : list string) (up : Upstream) :
  request_dict body = inl data ->
  obj_get "guild_ids" data = Some (JArr (map JStr gids))
  \/ (gids = [] /\ truthy_opt (obj_get "guild_ids" data) = false) ->
  env_unset (DISCORD_BOT_TOKEN env) = false -> env_unset (DISCORD_BOT_ID env) = false ->
  exists p,
    run up (bot_guilds_status_handler env body)
      = (JsonResp 200 (presence_json p),
         map (member_request (env_str (DISCORD_BOT_TOKEN env)) (env_str (DISCORD_BOT_ID env))) gids)
    /\ present p = ids_of_kind KPresent (lookups up env gids)
    /\ missing p = ids_of_kind KMissing (lookups up env gids)
    /\ errors p = PyDict.of_pairs (error_entries (lookups up env gids))
    /\ (NoDup gids -> forall g o, In (g, o) (lookups up env gids) -> placed p g o)
    /\ (NoDup gids -> forall g, In g gids -> collections_count p g = 1)
    /\ (gids = [] -> p = empty_presence /\ calls_of up (bot_guilds_status_handler env body) = 0).
Proof.
  intros Hd Hg Ht Hi.
  assert (Hrun : run up (bot_guilds_status_handler env body) = run up (bot_guilds_status env gids)).
  { apply (handler_string_ids env body up data gids Hd).
    destruct Hg as [Hg|Hg]; [left; exact Hg|right; left; exact Hg]. }
  set (tok := env_str (DISCORD_BOT_TOKEN env)); set (bid := env_str (DISCORD_BOT_ID env)).
  exists (guild_fold up 0 tok bid gids empty_presence).
  assert (Hpl : NoDup gids -> forall g o, In (g, o) (lookups up env gids) ->
                 placed (guild_fold up 0 tok bid gids empty_presence) g o).
  { intros Hnd g o Hin; apply fold_placed; [exact Hnd| |exact Hin].
    intros g' _; simpl; repeat split; tauto. }
  rewrite Hrun, (bot_guilds_status_run env gids up Ht Hi).
  split; [reflexivity|]; split; [apply fold_present|]; split; [apply fold_missing|].
  split; [apply fold_errors_entries|]; split; [exact Hpl|]; split.
  - intros Hnd g Hg'.
    rewrite <- (lookups_from_fst up 0 tok bid gids), in_map_iff in Hg'.
    destruct Hg' as ([g' o] & Eg & Hin); simpl in Eg; subst g'.
    exact (placed_count _ _ _ (Hpl Hnd g o Hin)).
  - intros ->; split; [reflexivity|].
    unfold calls_of; rewrite Hrun, (bot_guilds_status_run env [] up Ht Hi); reflexivity.
Qed.

(** At a repeated ID: "A" answered 200 and then 429 is in [present] and
    in [errors]. *)
Lemma bot_guilds_status_classifies_witness :
  exists p,
    run up_rate_limited (bot_guilds_status_handler env_bot (guild_ids_body ["A"; "B"; "A"]))
      = (JsonResp 200 (presence_json p),
         map (member_request "bot-token" "1234") ["A"; "B"; "A"])
    /\ present p = ids_of_kind KPresent (lookups up_rate_limited env_bot ["A"; "B"; "A"])
    /\ missing p = ids_of_kind KMissing (lookups up_rate_limited env_bot ["A"; "B"; "A"])
    /\ errors p = PyDict.of_pairs (error_entries (lookups up_rate_limited env_bot ["A"; "B"; "A"])).
Proof.
  destruct (bot_guilds_status_classifies env_bot (guild_ids_body ["A"; "B"; "A"])
              [("guild_ids", JArr (map JStr ["A"; "B"; "A"]))] ["A"; "B"; "A"] up_rate_limited
              eq_refl (or_introl eq_refl) eq_refl eq_refl)
    as (p & Hrun & Hp & Hm & He & _).
  exists p; split; [exact Hrun|]; split; [exact Hp|]; split; [exact Hm|exact He].
Defined.

(** C1 as stated fails: the loop does not deduplicate IDs, so an ID sent
    twice whose lookups get different answers (200, then a 429 rate
    limit) is both in [present] and in [errors]. *)
Lemma bot_guilds_status_duplicate_id_two_collections :
  result_of up_rate_limited (bot_guilds_status_handler env_bot (guild_ids_body ["A"; "A"]))
  = JsonResp 200 (presence_json (mkPresence ["A"] [] [("A", "status=429 body=rate limited")]))
  /\ ~ exactly_one_collection env_bot (guild_ids_body ["A"; "A"]) ["A"; "A"] up_rate_limited.
Proof.
  split; [vm_compute; reflexivity|].
  intros H.
  specialize (H (mkPresence ["A"] [] [("A", "status=429 body=rate limited")])
                ltac:(vm_compute; reflexivity) "A" (or_introl eq_refl)).
  vm_compute in H; discriminate.
Qed.


(** Two keys of different classes: [jsonify] raises. *)
Lemma kdict_json_mixed (d : KDict.t Json) (k1 k2 : Key) :
  In k1 (KDict.keys d) -> In k2 (KDict.keys d) -> key_class k1 <> key_class k2 ->
  kdict_json d = None.
Proof.
  unfold kdict_json; destruct d as [|[k0 v0] r]; [simpl; tauto|].
  intros H1 H2 Hne.
  destruct (forallb _ _) eqn:E; [|reflexivity].
  exfalso; rewrite forallb_forall in E.
  unfold KDict.keys in H1, H2; apply in_map_iff in H1 as ([k1' w1] & <- & I1).
  apply in_map_iff in H2 as ([k2' w2] & <- & I2).
  apply E, Nat.eqb_eq in I1; apply E, Nat.eqb_eq in I2; simpl in *; congruence.
Qed.

Lemma str_keys_false (d : KDict.t Json) :
  str_keys d = false -> exists k, In k (KDict.keys d) /\ key_class k <> 0.
Proof.
  unfold str_keys, KDict.keys; induction d as [|[k v] r IH]; simpl; [discriminate|].
  destruct (Nat.eqb_spec (key_class k) 0) as [E|E]; simpl.
  - intros H; destruct (IH H) as (k' & Hin & Hc); exists k'; tauto.
  - intros _; exists k; tauto.
Qed.

Lemma kget_in (k : Key) (v : Json) (d : KDict.t Json) :
  KDict.get k d = Some v -> exists k', In k' (KDict.keys d) /\ key_eqb k' k = true.
Proof.
  unfold KDict.keys; induction d as [|[k' v'] r IH]; simpl; [discriminate|].
  destruct (key_eqb k' k) eqn:E.
  - intros _; exists k'; tauto.
  - intros H; destruct (IH H) as (k'' & Hin & Hk); exists k''; tauto.
Qed.

Lemma members_get (s : string) (d : KDict.t Json) :
  str_keys d = true -> PyDict.get s (kdict_members d) = KDict.get (KStr s) d.
Proof.
  unfold str_keys, kdict_members; induction d as [|[k v] r IH]; simpl; [reflexivity|].
  intros H; apply andb_true_iff in H as [Hk Hr].
  destruct k as [t| | |]; try discriminate; simpl.
  destruct (String.eqb t s); [reflexivity|]; now apply IH.
Qed.

(** The answer of [stats] is a 500 or carries the uptime it just wrote. *)
Lemma stats_uptime_answer (elapsed_us : Z) (d : KDict.t Json) :
  fst (stats elapsed_us d) = Raised TypeError
  \/ uptime_of (fst (stats elapsed_us d)) = Some (JStr (uptime_string elapsed_us)).
Proof.
  unfold stats; simpl.
  set (d' := KDict.set (KStr "uptime") (JStr (uptime_string elapsed_us)) d).
  assert (Hu : KDict.get (KStr "uptime") d' = Some (JStr (uptime_string elapsed_us))).
  { unfold d'; rewrite kget_set, key_eqb_refl; reflexivity. }
  destruct (kdict_json d') as [j|] eqn:E; [right|left; reflexivity].
  destruct (str_keys d') eqn:Es.
  - rewrite kdict_json_str in E by exact Es; injection E as <-; simpl.
    now rewrite members_get.
  - exfalso.
    destruct (str_keys_false d' Es) as (k & Hk & Hc).
    destruct (kget_in _ _ _ Hu) as (k' & Hk' & Eq).
    apply key_eqb_rep in Eq; destruct k' as [t| | |]; try discriminate.
    rewrite (kdict_json_mixed d' k (KStr t) Hk Hk') in E; [discriminate|exact Hc].
Qed.

(** C8 (amended).  For a request whose JSON body decodes to an object, or
    to a falsy value (then taken as the empty mapping), [update_stats]
    merges the patch key by key: every key of the patch gets the patch's
    value and every other key keeps its stored value.  When the stored
    keys are all strings the answer is 200 with the whole stored mapping;
    a store that holds a string key and a non-string key (one an earlier
    list-of-pairs update such as [[[1, 2]]] stored) makes [jsonify] raise,
    so the answer is 500, the merge being done.  Without a JSON body
    (415) or with JSON that does not decode (400) Flask refuses the
    request and the store is not touched. *)
Theorem update_stats_merges (body : Body) (st : KDict.t Json) :
  (forall j kvs, request_json body = inl j -> py_or j (JObj []) = JObj kvs ->
     (forall k, KDict.get k (snd (update_stats body st))
                = match k with
                  | KStr s => match obj_get s kvs with Some v => Some v | None => KDict.get k st end
                  | _ => KDict.get k st
                  end)
     /\ (str_keys st = true ->
         str_keys (snd (update_stats body st)) = true
         /\ fst (update_stats body st)
            = JsonResp 200 (JObj [("success", JBool true);
                                  ("updated", JObj (kdict_members (snd (update_stats body st))))]))
     /\ ((exists s, In (KStr s) (KDict.keys st)) -> str_keys st = false ->
         fst (update_stats body st) = Raised TypeError))
  /\ (forall err, request_json body = inr err -> update_stats body st = (err, st)).
Proof.
  split.
  - intros j kvs Hj Hb.
    assert (Hu : update_stats body st
                 = (match kdict_json (merge_obj kvs st) with
                    | Some u => JsonResp 200 (JObj [("success", JBool true); ("updated", u)])
                    | None => Raised TypeError
                    end, merge_obj kvs st))
      by (unfold update_stats; rewrite Hj, Hb; reflexivity).
    rewrite Hu; simpl; split; [|split].
    + intros k; apply merge_obj_get.
    + intros Hs; pose proof (merge_obj_str_keys kvs st Hs) as Hs'.
      rewrite kdict_json_str by exact Hs'; split; [exact Hs'|reflexivity].
    + intros [s Hin] Hs.
      destruct (str_keys_false st Hs) as (k & Hk & Hc).
      rewrite (kdict_json_mixed _ k (KStr s)); [reflexivity| | |exact Hc];
        apply merge_obj_keys_in; assumption.
  - intros err Hj; unfold update_stats; now rewrite Hj.
Qed.

(** An object patch on the initial store gives 200; after the list of
    pairs [[[1, 2]]] has stored the int key [1], the same patch gives 500. *)
Lemma update_stats_merges_witness :
  fst (update_stats (JsonBody (JObj [("servers", JNum 5)])) bot_stats)
    = JsonResp 200 (JObj [("success", JBool true);
                          ("updated", JObj (kdict_members
                                              (snd (update_stats (JsonBody (JObj [("servers", JNum 5)]))
                                                      bot_stats))))])
  /\ fst (update_stats (JsonBody (JObj [("servers", JNum 5)]))
          (snd (update_stats (JsonBody (JArr [JArr [JNum 1; JNum 2]])) bot_stats)))
     = Raised TypeError.
Proof.
  split.
  - apply (proj2 (proj1 (proj2 (proj1 (update_stats_merges (JsonBody (JObj [("servers", JNum 5)])) bot_stats)
                                   _ [("servers", JNum 5)] eq_refl eq_refl)) eq_refl)).
  - apply (proj2 (proj2 (proj1 (update_stats_merges (JsonBody (JObj [("servers", JNum 5)]))
                                  (snd (update_stats (JsonBody (JArr [JArr [JNum 1; JNum 2]])) bot_stats)))
                           _ [("servers", JNum 5)] eq_refl eq_refl))).
    + exists "bot_name"; simpl; tauto.
    + reflexivity.
Defined.

(** C8 as stated fails: a well-formed JSON body that is not a mapping and
    is truthy (here [5]) is not taken as an empty patch; [dict.update]
    raises [TypeError] and Flask answers 500. *)
Lemma update_stats_number_body_raises :
  update_stats (JsonBody (JNum 5)) bot_stats = (Raised TypeError, bot_stats)
  /\ http_status (fst (update_stats (JsonBody (JNum 5)) bot_stats)) <> 200%Z.
Proof.
  split; [reflexivity|]; vm_compute; discriminate.
Qed.

(** C10.  [stats] stores the freshly formatted uptime in the shared dict
    (also when [jsonify] then raises) and leaves every other key
    unchanged; with string keys only it answers that dict with 200.
    Whatever value the store held under ["uptime"] (one written by
    [update_stats] included), every answer of [stats], the one right
    after an update and the next one, is a 500 or carries the recomputed
    uptime. *)
Theorem stats_overwrites_uptime (elapsed_us : Z) (st : KDict.t Json) :
  KDict.get (KStr "uptime") (snd (stats elapsed_us st)) = Some (JStr (uptime_string elapsed_us))
  /\ (forall k, k <> KStr "uptime" -> KDict.get k (snd (stats elapsed_us st)) = KDict.get k st)
  /\ (str_keys st = true ->
      fst (stats elapsed_us st) = JsonResp 200 (JObj (kdict_members (snd (stats elapsed_us st)))))
  /\ (forall body, fst (stats elapsed_us (snd (update_stats body st))) = Raised TypeError
                   \/ uptime_of (fst (stats elapsed_us (snd (update_stats body st))))
                      = Some (JStr (uptime_string elapsed_us)))
  /\ (forall elapsed_us2, fst (stats elapsed_us2 (snd (stats elapsed_us st))) = Raised TypeError
                          \/ uptime_of (fst (stats elapsed_us2 (snd (stats elapsed_us st))))
                             = Some (JStr (uptime_string elapsed_us2))).
Proof.
  split; [|split; [|split; [|split]]].
  - unfold stats; simpl; rewrite kget_set, key_eqb_refl; reflexivity.
  - intros k Hk; unfold stats; simpl; rewrite kget_set.
    destruct (key_eqb (KStr "uptime") k) eqn:E; [|reflexivity].
    apply key_eqb_str_l in E; congruence.
  - intros Hs; unfold stats; simpl.
    now rewrite kdict_json_str by now apply kset_str_keys.
  - intros body; apply stats_uptime_answer.
  - intros t2; apply stats_uptime_answer.
Qed.

Example stats_after_uptime_update :
  uptime_of (fst (stats 3723000000 (snd (update_stats (JsonBody (JObj [("uptime", JStr "forever")])) bot_stats))))
  = Some (JStr "1h 2m").
Proof. vm_compute; reflexivity. Qed.

(** * Further properties of the handlers *)

(** [debug_env] answers only whether each variable is set: two
    environments with the same set/unset pattern get the same answer, so
    no credential value can be read from it. *)
Theorem debug_env_presence_only (env1 env2 : Env) :
  env_unset (DISCORD_CLIENT_ID env1) = env_unset (DISCORD_CLIENT_ID env2) ->
  env_unset (DISCORD_CLIENT_SECRET env1) = env_unset (DISCORD_CLIENT_SECRET env2) ->
  env_unset (DISCORD_BOT_TOKEN env1) = env_unset (DISCORD_BOT_TOKEN env2) ->
  env_unset (DISCORD_BOT_ID env1) = env_unset (DISCORD_BOT_ID env2) ->
  debug_env env1 = debug_env env2.
Proof.
  intros H1 H2 H3 H4; unfold debug_env; now rewrite H1, H2, H3, H4.
Qed.

Lemma debug_env_presence_only_witness :
  debug_env (mkEnv (Some "id-1") None (Some "token-1") None)
  = debug_env (mkEnv (Some "id-2") None (Some "token-2") None).
Proof.
  apply debug_env_presence_only; reflexivity.
Defined.

(** Each OAuth handler makes at most one outbound call, whatever the
    request, the configuration and the upstream. *)
Theorem oauth_handlers_at_most_one_call (env : Env) (body : Body) (auth : option string)
    (up : Upstream) :
  calls_of up (oauth_exchange env body) <= 1
  /\ calls_of up (oauth_me auth) <= 1
  /\ calls_of up (oauth_guilds auth) <= 1.
Proof.
  split; [|split].
  - unfold calls_of, run, oauth_exchange.
    destruct (request_dict body) as [data|err]; [|simpl; lia]; cbv zeta.
    split_ifs; simpl; lia.
  - unfold calls_of, run, oauth_me.
    destruct (bearer_rejected auth); [simpl; lia|].
    destruct (bearer_token _); simpl; lia.
  - unfold calls_of, run, oauth_guilds.
    destruct (bearer_rejected auth); [simpl; lia|].
    destruct (bearer_token _); simpl; lia.
Qed.

(** With a truthy [code] and [redirect_uri] and both client credentials
    set, [oauth_exchange] makes exactly one call: a form POST to the token
    endpoint carrying the configured client id and secret, grant type
    [authorization_code], and the request's code and redirect URI.  A
    transport failure of that call is answered 502 with the exception
    message. *)
Theorem oauth_exchange_token_call (env : Env) (body : Body) (up : Upstream)
    (kvs : list (string * Json)) (code redirect_uri : Json) (cid csecret : string) :
  request_dict body = inl kvs ->
  obj_get "code" kvs = Some code -> truthy code = true ->
  obj_get "redirect_uri" kvs = Some redirect_uri -> truthy redirect_uri = true ->
  DISCORD_CLIENT_ID env = Some cid -> cid <> "" ->
  DISCORD_CLIENT_SECRET env = Some csecret -> csecret <> "" ->
  let q := token_request cid csecret code redirect_uri in
  run up (oauth_exchange env body) = (token_reply (up 0 q), [q])
  /\ req_method q = "POST" /\ req_url q = token_url
  /\ req_form q = [("client_id", JStr cid); ("client_secret", JStr csecret);
                   ("grant_type", JStr "authorization_code"); ("code", code);
                   ("redirect_uri", redirect_uri)]
  /\ (forall msg, up 0 q = Transport msg ->
        result_of up (oauth_exchange env body)
        = JsonResp 502 (JObj [("error", JStr "failed to contact Discord token endpoint");
                              ("details", JStr msg)])).
Proof.
  intros Hd Hc Htc Hr Htr Hid Hne1 Hsec Hne2 q.
  assert (Hrun : run up (oauth_exchange env body) = (token_reply (up 0 q), [q])).
  { unfold run, oauth_exchange; rewrite Hd; cbv zeta.
    rewrite Hc, Hr, Hid, Hsec; simpl; rewrite Htc, Htr; simpl.
    apply String.eqb_neq in Hne1, Hne2; rewrite Hne1, Hne2; simpl.
    unfold opt_or, py_or; rewrite Htc, Htr; reflexivity. }
  split; [exact Hrun|]; split; [reflexivity|]; split; [reflexivity|]; split; [reflexivity|].
  intros msg Hup; unfold result_of; rewrite Hrun, Hup; reflexivity.
Qed.

Lemma oauth_exchange_token_call_witness :
  let q := token_request "client-id" "client-secret" (JStr "abc123")
             (JStr "https://whiteout-survival.vercel.app/callback") in
  run (up_const (Transport "Read timed out.")) (oauth_exchange env_oauth exchange_body)
  = (token_reply (up_const (Transport "Read timed out.") 0 q), [q]).
Proof.
  apply (oauth_exchange_token_call env_oauth exchange_body (up_const (Transport "Read timed out."))
           [("code", JStr "abc123"); ("redirect_uri", JStr "https://whiteout-survival.vercel.app/callback")]
           (JStr "abc123") (JStr "https://whiteout-survival.vercel.app/callback")
           "client-id" "client-secret");
    try reflexivity; discriminate.
Defined.

(** Success path of [oauth_exchange]: a 200 whose body is a JSON object
    without an [error] key is answered 200 with that object unchanged. *)
Theorem oauth_exchange_success (env : Env) (body : Body) (up : Upstream)
    (r : Response) (kvs : list (string * Json)) :
  calls_of up (oauth_exchange env body) = 1 ->
  (forall q, up 0 q = Reached r) ->
  status_code r = 200%Z ->
  json_body r = Some (JObj kvs) ->
  obj_get "error" kvs = None ->
  result_of up (oauth_exchange env body) = JsonResp 200 (JObj kvs).
Proof.
  intros Hc Hup Hs Hj He.
  destruct (oauth_exchange_called env body up Hc) as [q Hrun].
  unfold result_of; rewrite Hrun, Hup; simpl; rewrite Hj.
  unfold exchange_answer; rewrite Hs; simpl; now rewrite He.
Qed.

Lemma oauth_exchange_success_witness :
  result_of (up_const (Reached (mkResponse 200 "{...}"
                                 (Some (JObj [("access_token", JStr "tok"); ("token_type", JStr "Bearer")])) [])))
    (oauth_exchange env_oauth exchange_body)
  = JsonResp 200 (JObj [("access_token", JStr "tok"); ("token_type", JStr "Bearer")]).
Proof.
  apply oauth_exchange_success with
    (r := mkResponse 200 "{...}" (Some (JObj [("access_token", JStr "tok"); ("token_type", JStr "Bearer")])) []);
    reflexivity.
Defined.

(** [oauth_me] never forwards Discord's status: every answer is 200, 401,
    502, or 500 when the handler raises. *)
Theorem oauth_me_status_set (auth : option string) (up : Upstream) :
  In (http_status (result_of up (oauth_me auth))) [200; 401; 500; 502]%Z.
Proof.
  unfold result_of, run, oauth_me.
  destruct (bearer_rejected auth); [simpl; tauto|].
  destruct (bearer_token _) as [token|]; simpl; [|tauto].
  unfold me_reply, me_answer.
  destruct (up 0 (me_request token)) as [r|msg]; simpl; [|tauto].
  destruct (json_body r) as [[]|]; simpl; tauto.
Qed.

Lemma substring_prefix (n : nat) (s : string) :
  (exists rest, s = py_prefix n s ++ rest) /\ String.length (py_prefix n s) = Nat.min n (String.length s).
Proof.
  unfold py_prefix; revert n; induction s as [|c s IH]; intros n.
  - destruct n; simpl; split; try reflexivity; exists ""; reflexivity.
  - destruct n as [|n]; simpl.
    + split; [exists (String c s); reflexivity | reflexivity].
    + destruct (IH n) as [[rest Hr] Hl]; split.
      * exists rest; simpl; now rewrite <- Hr.
      * now rewrite Hl.
Qed.

(** When Discord's answer to [oauth_me] is not JSON, the answer is 502
    and its [details] are the first 200 characters of the upstream text
    (the whole text when it is shorter). *)
Theorem oauth_me_invalid_json_truncated (auth : option string) (up : Upstream) (r : Response) :
  calls_of up (oauth_me auth) = 1 ->
  (forall q, up 0 q = Reached r) ->
  json_body r = None ->
  exists details,
    result_of up (oauth_me auth)
    = JsonResp 502 (JObj [("error", JStr "invalid response from Discord"); ("details", JStr details)])
    /\ (exists rest, text r = details ++ rest)
    /\ String.length details = Nat.min 200 (String.length (text r)).
Proof.
  intros Hc Hup Hj.
  destruct (oauth_me_called auth up Hc) as [q Hrun].
  exists (py_prefix 200 (text r)).
  unfold result_of; rewrite Hrun, Hup; simpl; unfold me_answer; rewrite Hj.
  split; [reflexivity|]; apply substring_prefix.
Qed.

Lemma oauth_me_invalid_json_truncated_witness :
  exists details,
    result_of (up_const (Reached resp_html_200)) (oauth_me auth_ok)
    = JsonResp 502 (JObj [("error", JStr "invalid response from Discord"); ("details", JStr details)])
    /\ (exists rest, text resp_html_200 = details ++ rest)
    /\ String.length details = Nat.min 200 (String.length (text resp_html_200)).
Proof.
  apply (oauth_me_invalid_json_truncated auth_ok (up_const (Reached resp_html_200)) resp_html_200);
    reflexivity.
Defined.

(** ** Parsing the [Authorization] header *)

Lemma py_lower_app (s1 s2 : string) : py_lower (s1 ++ s2) = py_lower s1 ++ py_lower s2.
Proof. induction s1 as [|c s1 IH]; simpl; [reflexivity|]; now rewrite IH. Qed.

Lemma lower_keeps_space (c : ascii) : py_isspace c = true -> py_isspace (py_lower_char c) = true.
Proof.
  destruct c as [[] [] [] [] [] [] [] []]; vm_compute; intros H; first [reflexivity | discriminate H].
Qed.

Lemma no_space_lower (s : string) : no_space (py_lower s) = true -> no_space s = true.
Proof.
  unfold no_space; induction s as [|c s IH]; simpl; [reflexivity|].
  intros H; apply andb_true_iff in H as [Hc Hs]; rewrite (IH Hs), andb_true_r.
  destruct (py_isspace c) eqn:E; [|reflexivity].
  now rewrite (lower_keeps_space c E) in Hc.
Qed.

Lemma take_word_no_space (s rest : string) :
  no_space s = true -> take_word (s ++ rest) = (s ++ fst (take_word rest), snd (take_word rest)).
Proof.
  unfold no_space; induction s as [|c s IH]; simpl; intros H.
  - destruct (take_word rest); reflexivity.
  - apply andb_true_iff in H as [Hc Hs]; apply negb_true_iff in Hc; rewrite Hc, (IH Hs); reflexivity.
Qed.

(** The scheme is matched case-insensitively and the token is everything
    after the separating space: for a header [<scheme> <token>] whose
    scheme lowercases to ["bearer"] and whose token is non-empty and does
    not start with whitespace, [oauth_me] and [oauth_guilds] make exactly one call, with
    [Authorization: Bearer <token>]. *)
Theorem bearer_header_token (scheme token : string) (up : Upstream) :
  py_lower scheme = "bearer" -> token <> "" -> py_lstrip token = token ->
  run up (oauth_me (Some (scheme ++ " " ++ token)))
    = (me_reply (up 0 (me_request token)), [me_request token])
  /\ run up (oauth_guilds (Some (scheme ++ " " ++ token)))
    = (guilds_reply (up 0 (guilds_request token)), [guilds_request token])
  /\ In ("Authorization", "Bearer " ++ token) (req_headers (me_request token))
  /\ In ("Authorization", "Bearer " ++ token) (req_headers (guilds_request token)).
Proof.
  intros Hs Ht Hl.
  assert (Hns : no_space scheme = true) by (apply no_space_lower; now rewrite Hs).
  assert (Hrej : bearer_rejected (Some (scheme ++ " " ++ token)) = false).
  { unfold bearer_rejected, py_startswith.
    rewrite py_lower_app, Hs; simpl.
    destruct scheme as [|c s']; [discriminate Hs|]; simpl.
    destruct (py_lower token); reflexivity. }
  assert (Htok : bearer_token (scheme ++ " " ++ token) = Some token).
  { unfold bearer_token, py_split_none_1.
    destruct scheme as [|c s'] eqn:Es; [discriminate Hs|].
    pose proof Hns as Hc; unfold no_space in Hc; simpl in Hc.
    apply andb_true_iff in Hc as [Hc _]; apply negb_true_iff in Hc.
    change (String c s' ++ " " ++ token) with (String c (s' ++ " " ++ token)).
    cbn [py_lstrip]; rewrite Hc; cbv beta iota.
    change (String c (s' ++ " " ++ token)) with (String c s' ++ " " ++ token).
    rewrite <- Es, take_word_no_space by (rewrite Es; exact Hns); simpl.
    rewrite Hl; destruct token; [contradiction|reflexivity]. }
  destruct (bearer_dispatch (Some (scheme ++ " " ++ token))) as (_ & _ & H3).
  destruct (H3 _ token eq_refl Hrej Htok) as [-> ->].
  repeat split; simpl; auto.
Qed.

Lemma bearer_header_token_witness :
  run (up_const (Transport "unused")) (oauth_me (Some ("bEaReR" ++ " " ++ "abc123")))
  = (me_reply (up_const (Transport "unused") 0 (me_request "abc123")), [me_request "abc123"]).
Proof.
  apply (bearer_header_token "bEaReR" "abc123" (up_const (Transport "unused"))); try reflexivity.
  discriminate.
Defined.

(** ** The guild-presence handler: gate and error entries *)

(** The view on a request whose [guild_ids] is a JSON list of strings,
    absent or falsy, or a non-empty string (whose characters are then the
    IDs, one lookup each) runs as the loop over those string IDs. *)
Theorem bot_guilds_status_handler_strings (env : Env) (body : Body) (up : Upstream)
    (data : list (string * Json)) (gids : list string) :
  request_dict body = inl data ->
  obj_get "guild_ids" data = Some (JArr (map JStr gids))
  \/ (gids = [] /\ truthy_opt (obj_get "guild_ids" data) = false)
  \/ (exists s, obj_get "guild_ids" data = Some (JStr s) /\ s <> ""
                /\ gids = map (fun c => String c EmptyString) (list_ascii_of_string s)) ->
  run up (bot_guilds_status_handler env body) = run up (bot_guilds_status env gids).
Proof.
  exact (handler_string_ids env body up data gids).
Qed.

Lemma bot_guilds_status_handler_strings_witness :
  run up_isolation (bot_guilds_status_handler env_bot
                      (JsonBody (JObj [("guild_ids", JArr [JStr "A"; JStr "B"; JStr "C"])])))
  = run up_isolation (bot_guilds_status env_bot ["A"; "B"; "C"])
  /\ run up_isolation (bot_guilds_status_handler env_bot (JsonBody (JObj [("guild_ids", JStr "AB")])))
     = run up_isolation (bot_guilds_status env_bot ["A"; "B"]).
Proof.
  split.
  - apply (bot_guilds_status_handler_strings env_bot
             (JsonBody (JObj [("guild_ids", JArr [JStr "A"; JStr "B"; JStr "C"])])) up_isolation
             [("guild_ids", JArr [JStr "A"; JStr "B"; JStr "C"])] ["A"; "B"; "C"] eq_refl).
    left; reflexivity.
  - apply (bot_guilds_status_handler_strings env_bot
             (JsonBody (JObj [("guild_ids", JStr "AB")])) up_isolation
             [("guild_ids", JStr "AB")] ["A"; "B"] eq_refl).
    right; right; exists "AB"; split; [reflexivity|]; split; [discriminate|reflexivity].
Defined.

(** The body is parsed before the credentials are checked: without a
    JSON body the answer is 415, for JSON that does not decode 400, and
    for a truthy JSON value that is not an object 500 ([AttributeError]).
    For an object (or a falsy) body, an unset or empty bot token gives 500
    naming [DISCORD_BOT_TOKEN], then a missing bot id 500 naming
    [DISCORD_BOT_ID]; with both set, a truthy [guild_ids] that is not
    iterable (a number, [true]) raises [TypeError].  None of these makes
    an outbound call. *)
Theorem bot_guilds_status_gate (env : Env) (body : Body) (up : Upstream) :
  (body = NoJson -> run up (bot_guilds_status_handler env body) = (Aborted 415, []))
  /\ (body = BadJson -> run up (bot_guilds_status_handler env body) = (Aborted 400, []))
  /\ (forall j, body = JsonBody j -> truthy j = true -> (forall kvs, j <> JObj kvs) ->
        run up (bot_guilds_status_handler env body) = (Raised AttributeError, []))
  /\ (forall data, request_dict body = inl data -> env_unset (DISCORD_BOT_TOKEN env) = true ->
        run up (bot_guilds_status_handler env body)
        = (JsonResp 500 (err_body "DISCORD_BOT_TOKEN not configured"), []))
  /\ (forall data, request_dict body = inl data -> env_unset (DISCORD_BOT_TOKEN env) = false ->
        env_unset (DISCORD_BOT_ID env) = true ->
        run up (bot_guilds_status_handler env body)
        = (JsonResp 500 (err_body "DISCORD_BOT_ID not configured"), []))
  /\ (forall data g, request_dict body = inl data -> env_unset (DISCORD_BOT_TOKEN env) = false ->
        env_unset (DISCORD_BOT_ID env) = false ->
        obj_get "guild_ids" data = Some g -> truthy g = true -> py_iter g = None ->
        run up (bot_guilds_status_handler env body) = (Raised TypeError, [])).
Proof.
  unfold run, bot_guilds_status_handler.
  split; [|split; [|split; [|split; [|split]]]].
  - intros ->; reflexivity.
  - intros ->; reflexivity.
  - intros j -> Ht Hno; unfold request_dict, py_or; simpl; rewrite Ht.
    destruct j as [| | | | |kvs]; try reflexivity.
    exfalso; exact (Hno kvs eq_refl).
  - intros data Hd H1; rewrite Hd; cbv zeta; now rewrite H1.
  - intros data Hd H1 H2; rewrite Hd; cbv zeta; now rewrite H1, H2.
  - intros data g Hd H1 H2 Hg Ht Hi; rewrite Hd; cbv zeta; rewrite H1, H2, Hg.
    unfold opt_or, py_or; now rewrite Ht, Hi.
Qed.

Lemma bot_guilds_status_gate_witness :
  run up_isolation (bot_guilds_status_handler env_bot NoJson) = (Aborted 415, [])
  /\ run up_isolation (bot_guilds_status_handler env_bot (JsonBody (JArr [JNum 1])))
     = (Raised AttributeError, [])
  /\ run up_isolation (bot_guilds_status_handler env_oauth (JsonBody (JObj [])))
     = (JsonResp 500 (err_body "DISCORD_BOT_TOKEN not configured"), [])
  /\ run up_isolation (bot_guilds_status_handler env_bot (JsonBody (JObj [("guild_ids", JNum 5)])))
     = (Raised TypeError, []).
Proof.
  destruct (bot_guilds_status_gate env_bot NoJson up_isolation) as (H415 & _).
  destruct (bot_guilds_status_gate env_bot (JsonBody (JArr [JNum 1])) up_isolation)
    as (_ & _ & Hattr & _).
  destruct (bot_guilds_status_gate env_oauth (JsonBody (JObj [])) up_isolation)
    as (_ & _ & _ & Htok & _).
  destruct (bot_guilds_status_gate env_bot (JsonBody (JObj [("guild_ids", JNum 5)])) up_isolation)
    as (_ & _ & _ & _ & _ & Hiter).
  split; [exact (H415 eq_refl)|].
  split; [apply (Hattr (JArr [JNum 1]) eq_refl eq_refl); intros kvs; discriminate|].
  split; [exact (Htok [] eq_refl eq_refl)|].
  exact (Hiter [("guild_ids", JNum 5)] (JNum 5) eq_refl eq_refl eq_refl eq_refl eq_refl eq_refl).
Defined.

Lemma key_eqb_class (a b : Key) : key_eqb a b = true -> key_class a = key_class b.
Proof.
  destruct a, b; cbv [key_eqb key_num key_class]; try discriminate; reflexivity.
Qed.

Lemma kset_keeps_key {V} (k k' : Key) (v : V) (d : KDict.t V) :
  In k' (KDict.keys d) -> In k' (KDict.keys (KDict.set k v d)).
Proof.
  induction d as [|[k0 v0] r IH]; simpl; [tauto|].
  destruct (key_eqb k0 k); simpl; tauto.
Qed.

Lemma kset_class {V} (k : Key) (v : V) (d : KDict.t V) :
  exists k', In k' (KDict.keys (KDict.set k v d)) /\ key_class k' = key_class k.
Proof.
  induction d as [|[k0 v0] r IH]; simpl.
  - exists k; tauto.
  - destruct (key_eqb k0 k) eqn:E; simpl.
    + exists k0; split; [tauto|]; now apply key_eqb_class.
    + destruct IH as (k' & Hin & Hc); exists k'; tauto.
Qed.

(** Lookups that all fail (neither 200 nor 404) on hashable IDs: every
    lookup is made, and the dict [errors] ends up holding a key of the
    class of every ID and of every key it held before. *)
Lemma loop_all_errors (up : Upstream) (tok bid : string) (gids : list Json) :
  (forall m q, match up m q with
               | Reached r => status_code r <> 200%Z /\ status_code r <> 404%Z
               | Transport _ => True
               end) ->
  (forall g, In g gids -> key_of g <> None) ->
  forall n p, exists e,
    fst (run_from up n (guild_loop_any tok bid gids p))
      = match gpresence_json (mkGPresence (gpresent p) (gmissing p) e) with
        | Some j => JsonResp 200 j
        | None => Raised TypeError
        end
    /\ length (snd (run_from up n (guild_loop_any tok bid gids p))) = length gids
    /\ (forall k, In k (KDict.keys (gerrors p)) ->
          exists k', In k' (KDict.keys e) /\ key_class k' = key_class k)
    /\ (forall g k, In g gids -> key_of g = Some k ->
          exists k', In k' (KDict.keys e) /\ key_class k' = key_class k).
Proof.
  intros Hup. induction gids as [|g r IH]; intros Hh n p.
  - exists (gerrors p); split; [destruct p; reflexivity|].
    split; [reflexivity|]; split; [|simpl; tauto].
    intros k Hk; exists k; tauto.
  - destruct (key_of g) as [kg|] eqn:Ekg; [|exfalso; exact (Hh g (or_introl eq_refl) Ekg)].
    assert (Hc : exists msg, classify_any g (up n (member_request tok bid (py_str g))) p
                 = Some (mkGPresence (gpresent p) (gmissing p) (KDict.set kg msg (gerrors p)))).
    { specialize (Hup n (member_request tok bid (py_str g))).
      unfold classify_any; destruct (up n _) as [resp|msg].
      - destruct Hup as [H2 H4]; apply Z.eqb_neq in H2, H4; rewrite H2, H4, Ekg.
        eexists; reflexivity.
      - rewrite Ekg; eexists; reflexivity. }
    destruct Hc as [msg Hc].
    destruct (IH (fun g' Hg' => Hh g' (or_intror Hg')) (S n)
                 (mkGPresence (gpresent p) (gmissing p) (KDict.set kg msg (gerrors p))))
      as (e & He & Hl & Hold & Hnew).
    exists e; simpl; rewrite Hc.
    destruct (run_from up (S n) _) as [res qs] eqn:Er; simpl in *.
    split; [exact He|]; split; [now rewrite Hl|]; split.
    + intros k Hk; apply Hold; now apply kset_keeps_key.
    + intros g' k [<-|Hg'] Hk.
      * rewrite Ekg in Hk; injection Hk as <-.
        destruct (kset_class kg msg (gerrors p)) as (k1 & Hk1 & Hc1).
        destruct (Hold k1 Hk1) as (k2 & Hk2 & Hc2); exists k2; split; [exact Hk2|congruence].
      * exact (Hnew g' k Hg' Hk).
Qed.

Lemma keys_map_values {V} (f : V -> Json) (e : KDict.t V) :
  KDict.keys (map (fun '(k, v) => (k, f v)) e) = KDict.keys e.
Proof.
  induction e as [|[k v] r IH]; simpl; [reflexivity|]; now rewrite IH.
Qed.

(** When every lookup fails (neither 200 nor 404) and the IDs are
    hashable but include a string and a value of another type (a number,
    a bool or [null]), [errors] holds keys [sorted] cannot compare:
    after all the lookups are made, [jsonify] raises [TypeError] and the
    answer is 500 instead of the three collections. *)
Theorem bot_guilds_status_mixed_error_keys (env : Env) (body : Body) (up : Upstream)
    (data : list (string * Json)) (gids : list Json) (gs go : Json) :
  request_dict body = inl data ->
  env_unset (DISCORD_BOT_TOKEN env) = false ->
  env_unset (DISCORD_BOT_ID env) = false ->
  py_iter (opt_or (obj_get "guild_ids" data) (JArr [])) = Some gids ->
  (forall g, In g gids -> key_of g <> None) ->
  (forall m q, match up m q with
               | Reached r => status_code r <> 200%Z /\ status_code r <> 404%Z
               | Transport _ => True
               end) ->
  In gs gids -> (exists s, gs = JStr s) ->
  In go gids -> (forall s, go <> JStr s) ->
  result_of up (bot_guilds_status_handler env body) = Raised TypeError
  /\ calls_of up (bot_guilds_status_handler env body) = length gids.
Proof.
  intros Hd H1 H2 Hit Hh Hup Hs [s ->] Ho Hno.
  unfold result_of, calls_of, run, bot_guilds_status_handler; rewrite Hd; cbv zeta.
  rewrite H1, H2, Hit.
  destruct (loop_all_errors up (env_str (DISCORD_BOT_TOKEN env)) (env_str (DISCORD_BOT_ID env))
              gids Hup Hh 0 (mkGPresence [] [] [])) as (e & He & Hl & _ & Hnew).
  split; [|exact Hl].
  rewrite He.
  destruct (Hnew (JStr s) (KStr s) Hs eq_refl) as (k1 & Hk1 & Hc1).
  destruct (key_of go) as [ko|] eqn:Eko; [|exfalso; exact (Hh go Ho Eko)].
  destruct (Hnew go ko Ho Eko) as (k2 & Hk2 & Hc2).
  unfold gpresence_json; simpl gerrors.
  rewrite (kdict_json_mixed _ k1 k2); [reflexivity| now rewrite keys_map_values
                                         | now rewrite keys_map_values |].
  rewrite Hc1, Hc2; simpl.
  destruct go as [|b|z|s'|l|kvs]; simpl in Eko; try discriminate;
    try (injection Eko as <-; simpl; discriminate).
  exfalso; exact (Hno s' eq_refl).
Qed.

Lemma bot_guilds_status_mixed_error_keys_witness :
  run (up_const (Transport "timed out"))
      (bot_guilds_status_handler env_bot (JsonBody (JObj [("guild_ids", JArr [JStr "111"; JNum 222])])))
  = (Raised TypeError, [member_request "bot-token" "1234" "111"; member_request "bot-token" "1234" "222"])
  /\ result_of (up_const (Transport "timed out"))
       (bot_guilds_status_handler env_bot (JsonBody (JObj [("guild_ids", JArr [JStr "111"; JNum 222])])))
     = Raised TypeError.
Proof.
  split; [reflexivity|].
  apply (bot_guilds_status_mixed_error_keys env_bot
           (JsonBody (JObj [("guild_ids", JArr [JStr "111"; JNum 222])]))
           (up_const (Transport "timed out")) [("guild_ids", JArr [JStr "111"; JNum 222])]
           [JStr "111"; JNum 222] (JStr "111") (JNum 222)
           eq_refl eq_refl eq_refl eq_refl).
  - intros g [<-|[<-|[]]]; discriminate.
  - intros m q; exact I.
  - left; reflexivity.
  - exists "111"; reflexivity.
  - right; left; reflexivity.
  - intros s'; discriminate.
Defined.

(** An error status from a lookup is recorded as
    ["status=<code> body=<text>"] where the body part is the first 300
    characters of the upstream text (all of it when shorter). *)
Theorem bot_guilds_status_error_entry (env : Env) (gids : list string) (up : Upstream)
    (g : string) (r : Response) :
  env_unset (DISCORD_BOT_TOKEN env) = false -> env_unset (DISCORD_BOT_ID env) = false ->
  NoDup gids ->
  In (g, Reached r) (lookups up env gids) ->
  status_code r <> 200%Z -> status_code r <> 404%Z ->
  exists p body,
    result_of up (bot_guilds_status env gids) = JsonResp 200 (presence_json p)
    /\ PyDict.get g (errors p) = Some ("status=" ++ str_of_Z (status_code r) ++ " body=" ++ body)
    /\ (exists rest, text r = body ++ rest)
    /\ String.length body = Nat.min 300 (String.length (text r)).
Proof.
  intros Ht Hi Hnd Hin H200 H404.
  set (tok := env_str (DISCORD_BOT_TOKEN env)); set (bid := env_str (DISCORD_BOT_ID env)).
  exists (guild_fold up 0 tok bid gids empty_presence), (py_prefix 300 (text r)).
  assert (Hpl : placed (guild_fold up 0 tok bid gids empty_presence) g (Reached r)).
  { apply fold_placed; [exact Hnd| |exact Hin]. intros g' _; simpl; repeat split; tauto. }
  unfold placed, kind_of in Hpl.
  apply Z.eqb_neq in H200, H404; rewrite H200, H404 in Hpl.
  destruct Hpl as (_ & _ & He).
  unfold result_of; rewrite (bot_guilds_status_run env gids up Ht Hi).
  split; [reflexivity|]; split; [exact He|]; apply substring_prefix.
Qed.

Lemma bot_guilds_status_error_entry_witness :
  exists p body,
    result_of up_rate_limited (bot_guilds_status env_bot ["A"; "B"]) = JsonResp 200 (presence_json p)
    /\ PyDict.get "B" (errors p)
       = Some ("status=" ++ str_of_Z 429 ++ " body=" ++ body)
    /\ (exists rest, "rate limited" = body ++ rest)
    /\ String.length body = Nat.min 300 (String.length "rate limited").
Proof.
  apply (bot_guilds_status_error_entry env_bot ["A"; "B"] up_rate_limited "B"
           (mkResponse 429 "rate limited" None [])); try reflexivity.
  - repeat constructor; simpl; intuition discriminate.
  - simpl; auto.
  - discriminate.
  - discriminate.
Defined.

(** ** Uptime formatting *)

Lemma uptime_split (elapsed_us : Z) :
  exists h m,
    uptime_string elapsed_us = str_of_Z h ++ "h " ++ str_of_Z m ++ "m"
    /\ (0 <= m < 60)%Z
    /\ (h * 60 + m = elapsed_us / 60000000)%Z.
Proof.
  exists (elapsed_us / 3600000000)%Z, ((elapsed_us mod 3600000000) / 60000000)%Z.
  split; [reflexivity|].
  pose proof (Z.mod_pos_bound elapsed_us 3600000000 ltac:(lia)) as Hb.
  split.
  - split; [apply Z.div_pos; lia|].
    apply Z.div_lt_upper_bound; lia.
  - rewrite (Z.div_mod elapsed_us 3600000000) at 3 by lia.
    replace (3600000000 * (elapsed_us / 3600000000) + elapsed_us mod 3600000000)%Z
      with (elapsed_us mod 3600000000 + (elapsed_us / 3600000000 * 60) * 60000000)%Z by lia.
    rewrite Z.div_add by lia; lia.
Qed.

(** The uptime text is ["<h>h <m>m"] with [0 <= m < 60], and [h * 60 + m]
    is the whole number of minutes elapsed (floor). *)
Theorem uptime_string_parts (elapsed_us : Z) :
  exists h m,
    uptime_string elapsed_us = str_of_Z h ++ "h " ++ str_of_Z m ++ "m"
    /\ (0 <= m < 60)%Z
    /\ (h * 60 + m = elapsed_us / 60000000)%Z.
Proof.
  exact (uptime_split elapsed_us).
Qed.

(** The displayed uptime never goes backwards: for a later elapsed time
    the hours grow, or stay equal with minutes not smaller. *)
Theorem uptime_string_monotone (t1 t2 : Z) :
  (t1 <= t2)%Z ->
  exists h1 m1 h2 m2,
    uptime_string t1 = str_of_Z h1 ++ "h " ++ str_of_Z m1 ++ "m"
    /\ uptime_string t2 = str_of_Z h2 ++ "h " ++ str_of_Z m2 ++ "m"
    /\ ((h1 < h2)%Z \/ (h1 = h2 /\ m1 <= m2)%Z).
Proof.
  intros Hle.
  destruct (uptime_split t1) as (h1 & m1 & E1 & B1 & T1).
  destruct (uptime_split t2) as (h2 & m2 & E2 & B2 & T2).
  exists h1, m1, h2, m2; split; [exact E1|]; split; [exact E2|].
  assert (Hm : (t1 / 60000000 <= t2 / 60000000)%Z) by (apply Z.div_le_mono; lia).
  lia.
Qed.

Lemma uptime_string_monotone_witness :
  exists h1 m1 h2 m2,
    uptime_string 3540000000 = str_of_Z h1 ++ "h " ++ str_of_Z m1 ++ "m"
    /\ uptime_string 3600000000 = str_of_Z h2 ++ "h " ++ str_of_Z m2 ++ "m"
    /\ ((h1 < h2)%Z \/ (h1 = h2 /\ m1 <= m2)%Z).
Proof.
  apply uptime_string_monotone; lia.
Defined.

(** ** The stats store: merging *)

Lemma get_in_nodup {V} (k : string) (v : V) (d : PyDict.t V) :
  NoDup (PyDict.keys d) -> In (k, v) d -> PyDict.get k d = Some v.
Proof.
  unfold PyDict.keys; induction d as [|[k' v'] r IH]; simpl; [tauto|].
  intros Hnd [E|Hin]; apply NoDup_cons_iff in Hnd as [Hk Hnd].
  - injection E as -> ->; now rewrite String.eqb_refl.
  - destruct (String.eqb_spec k' k) as [->|]; [|now apply IH].
    exfalso; apply Hk; apply (in_map fst) in Hin; exact Hin.
Qed.

Lemma merge_obj_fixed (l : list (string * Json)) (d : KDict.t Json) :
  (forall k v, In (k, v) l -> KDict.get (KStr k) d = Some v) ->
  fold_left (fun acc '(k', v) => KDict.set (KStr k') v acc) l d = d.
Proof.
  induction l as [|[k v] r IH]; simpl; intros H; [reflexivity|].
  rewrite (kset_same (KStr k) v d (H k v (or_introl eq_refl))).
  apply IH; intros k' v' Hin; apply H; now right.
Qed.

Lemma update_stats_obj (body : Body) (st : KDict.t Json) (j : Json) (kvs : list (string * Json)) :
  request_json body = inl j -> py_or j (JObj []) = JObj kvs ->
  snd (update_stats body st) = merge_obj kvs st.
Proof.
  intros Hj Hb; unfold update_stats; rewrite Hj, Hb; reflexivity.
Qed.

(** Applying the same object patch twice leaves the store as applying it
    once. *)
Theorem update_stats_idempotent (body : Body) (st : KDict.t Json) (j : Json)
    (kvs : list (string * Json)) :
  request_json body = inl j -> py_or j (JObj []) = JObj kvs ->
  snd (update_stats body (snd (update_stats body st))) = snd (update_stats body st).
Proof.
  intros Hj Hb; rewrite !(update_stats_obj body _ j kvs Hj Hb).
  apply merge_obj_fixed; intros k v Hin.
  rewrite merge_obj_get; unfold obj_get.
  now rewrite (get_in_nodup k v _ (nodup_of_pairs kvs) Hin).
Qed.

Lemma update_stats_idempotent_witness :
  snd (update_stats (JsonBody (JObj [("servers", JNum 5); ("users", JNum 40)]))
         (snd (update_stats (JsonBody (JObj [("servers", JNum 5); ("users", JNum 40)])) bot_stats)))
  = snd (update_stats (JsonBody (JObj [("servers", JNum 5); ("users", JNum 40)])) bot_stats).
Proof.
  apply (update_stats_idempotent _ bot_stats (JObj [("servers", JNum 5); ("users", JNum 40)])
           [("servers", JNum 5); ("users", JNum 40)]); reflexivity.
Defined.

(** An object patch followed by [stats], on a store whose keys are all
    strings: the answer carries the patch's value for every patched key
    other than ["uptime"], the stored value for every other key, and the
    recomputed uptime. *)
Theorem update_then_stats (body : Body) (st : KDict.t Json) (j : Json) (kvs : list (string * Json))
    (elapsed_us : Z) :
  request_json body = inl j -> py_or j (JObj []) = JObj kvs -> str_keys st = true ->
  answer_get "uptime" (fst (stats elapsed_us (snd (update_stats body st))))
    = Some (JStr (uptime_string elapsed_us))
  /\ (forall k, k <> "uptime" ->
        answer_get k (fst (stats elapsed_us (snd (update_stats body st))))
        = match obj_get k kvs with Some v => Some v | None => KDict.get (KStr k) st end).
Proof.
  intros Hj Hb Hs; rewrite (update_stats_obj body st j kvs Hj Hb).
  pose proof (kset_str_keys "uptime" (JStr (uptime_string elapsed_us)) _ (merge_obj_str_keys kvs st Hs))
    as Hs'.
  unfold stats; simpl; rewrite kdict_json_str by exact Hs'; simpl.
  split.
  - rewrite members_get by exact Hs'; rewrite kget_set, key_eqb_refl; reflexivity.
  - intros k Hk; rewrite members_get by exact Hs'; rewrite kget_set, key_eqb_str.
    apply String.eqb_neq in Hk; rewrite String.eqb_sym, Hk.
    rewrite merge_obj_get; reflexivity.
Qed.

Lemma update_then_stats_witness :
  answer_get "uptime" (fst (stats 60000000 (snd (update_stats (JsonBody (JObj [("servers", JNum 5)])) bot_stats))))
    = Some (JStr (uptime_string 60000000))
  /\ (forall k, k <> "uptime" ->
        answer_get k (fst (stats 60000000 (snd (update_stats (JsonBody (JObj [("servers", JNum 5)])) bot_stats))))
        = match obj_get k [("servers", JNum 5)] with
          | Some v => Some v
          | None => KDict.get (KStr k) bot_stats
          end).
Proof.
  apply (update_then_stats (JsonBody (JObj [("servers", JNum 5)])) bot_stats (JObj [("servers", JNum 5)])
           [("servers", JNum 5)] 60000000); reflexivity.
Defined.

(** [update_stats] never removes a key, whatever the body, also when it
    raises part-way through a sequence of pairs. *)
Theorem update_stats_keeps_keys (body : Body) (st : KDict.t Json) (k : Key) :
  KDict.get k st <> None -> KDict.get k (snd (update_stats body st)) <> None.
Proof.
  intros H; unfold update_stats.
  assert (Hseq : forall l d, KDict.get k d <> None -> KDict.get k (fst (update_seq l d)) <> None).
  { induction l as [|e r IH]; intros d Hd; simpl; [exact Hd|].
    destruct (update_pair e) as [[k' v]|exc]; simpl; [|exact Hd].
    apply IH, kget_set_keeps, Hd. }
  assert (Hupd : forall data, KDict.get k (fst (dict_update st data)) <> None).
  { intros [| | | |l|kvs]; simpl; try exact H; [apply Hseq, H|].
    rewrite kfold_set_get; destruct k as [s| | |]; try exact H.
    destruct (last_binding s _); [discriminate | exact H]. }
  destruct (request_json body) as [j|err]; simpl; [|exact H].
  specialize (Hupd (py_or j (JObj []))).
  destruct (dict_update st (py_or j (JObj []))) as [st' [exc|]]; exact Hupd.
Qed.

Lemma update_stats_keeps_keys_witness :
  fst (update_stats (JsonBody (JArr [JArr [JStr "servers"; JNum 3]; JNum 1])) bot_stats) = Raised TypeError
  /\ KDict.get (KStr "users")
       (snd (update_stats (JsonBody (JArr [JArr [JStr "servers"; JNum 3]; JNum 1])) bot_stats))
     <> None.
Proof.
  split; [reflexivity|].
  apply update_stats_keeps_keys; discriminate.
Defined.
